(** * REST API Tester: the request/response pipeline of [app.py]

    A shallow embedding of the pure helpers of [app.py]
    ([kv_rows_to_dict], [build_auth], [try_parse_json]) and of the three
    script blocks that carry logic: the body tab of the form, the
    "Save preset" block and the "Send request" block with its body viewer.

    Python strings are modelled as Rocq strings whose characters are the
    code points below 256; a Python [dict] with string keys is a [gmap];
    Python's [None] is [None] of an option type, except for the result of
    [json.loads], where JSON [null] and Python [None] are the same object
    and are both written [JNull]. *)

From Stdlib Require Import Ascii String NArith List QArith.
From stdpp Require Import base option list strings gmap fin_maps.

Local Open Scope string_scope.
Set Warnings "-register-all".

(** ** Python string primitives *)

Module PyStr.

(** [str.isspace] on one character, for code points below 256:
    TAB..CR, FS..US, SPACE, NEL and NBSP. *)
Definition isspace (c : ascii) : bool :=
  let n := N_of_ascii c in
  (((9 <=? n) && (n <=? 13)) || ((28 <=? n) && (n <=? 32))
   || (n =? 133) || (n =? 160))%N.

Fixpoint lstrip (s : string) : string :=
  match s with
  | EmptyString => EmptyString
  | String c s' => if isspace c then lstrip s' else s
  end.

Fixpoint rstrip (s : string) : string :=
  match s with
  | EmptyString => EmptyString
  | String c s' =>
      match rstrip s' with
      | EmptyString => if isspace c then EmptyString else String c EmptyString
      | r => String c r
      end
  end.

(** [s.strip()] *)
Definition strip (s : string) : string := rstrip (lstrip s).

(** [s.startswith(p)] *)
Fixpoint startswith (s p : string) {struct p} : bool :=
  match p, s with
  | EmptyString, _ => true
  | String _ _, EmptyString => false
  | String a p', String b s' => if Ascii.eqb a b then startswith s' p' else false
  end.

(** [sub in s] *)
Fixpoint contains (sub s : string) : bool :=
  startswith s sub ||
  match s with
  | EmptyString => false
  | String _ s' => contains sub s'
  end.

(** [s.lower()], for code points below 256. *)
Definition lower_char (c : ascii) : ascii :=
  let n := N_of_ascii c in
  if (((65 <=? n) && (n <=? 90)) || ((192 <=? n) && (n <=? 222) && negb (n =? 215)))%N
  then ascii_of_N (n + 32) else c.

Fixpoint lower (s : string) : string :=
  match s with
  | EmptyString => EmptyString
  | String c s' => String (lower_char c) (lower s')
  end.

(** Truthiness of a string: [bool(s)]. *)
Definition truthy (s : string) : bool :=
  match s with EmptyString => false | String _ _ => true end.

(** [x or d] for an optional string [x] ([None] and [""] are falsy). *)
Definition or_str (x : option string) (d : string) : string :=
  match x with
  | Some (String c s) => String c s
  | _ => d
  end.

(** First and last character of a string. *)
Definition first (s : string) : option ascii :=
  match s with EmptyString => None | String c _ => Some c end.

Fixpoint last (s : string) : option ascii :=
  match s with
  | EmptyString => None
  | String c EmptyString => Some c
  | String _ s' => last s'
  end.

(** A string is trimmed when neither end is a whitespace character. *)
Definition trimmed (s : string) : Prop :=
  (∀ c, first s = Some c → isspace c = false) ∧
  (∀ c, last s = Some c → isspace c = false).

End PyStr.

(** ** Utils *)

(** A row of the data editor: a Python dict whose entries may be missing
    or hold [None]. *)
Abbreviation row := (gmap string (option string)).

(** [r.get(k)] : missing entries and [None] entries both give [None]. *)
Definition row_get (r : row) (k : string) : option string := mjoin (r !! k).

Definition row_key (r : row) : string := PyStr.strip (PyStr.or_str (row_get r "key") "").
Definition row_value (r : row) : string := PyStr.strip (PyStr.or_str (row_get r "value") "").

(** One iteration of the loop of [kv_rows_to_dict]. *)
Definition kv_step (out : gmap string string) (r : row) : gmap string string :=
  let k := row_key r in
  let v := row_value r in
  if PyStr.truthy k then <[k := v]> out else out.

Definition kv_rows_to_dict (rows : list row) : gmap string string :=
  fold_left kv_step rows ∅.

(** [s] between double quotes. *)
Definition quoted (s : string) : string :=
  String (ascii_of_N 34) (s +:+ String (ascii_of_N 34) EmptyString).

(** [{"key": k, "value": v}] *)
Definition mk_row (k v : string) : row :=
  <["key" := Some k]> (<["value" := Some v]> ∅).

(** Result of [build_auth]: the headers to add and the [auth] argument of
    [requests.request]. *)
Definition build_auth (auth_type : string) (bearer user pwd : option string)
  : gmap string string * option (string * string) :=
  match String.eqb auth_type "Bearer", bearer with
  | true, Some (String c tok) =>
      ({[ "Authorization" := "Bearer " +:+ String c tok ]}, None)
  | _, _ =>
      match String.eqb auth_type "Basic", user with
      | true, Some u => (∅, Some (u, PyStr.or_str pwd ""))
      | _, _ => (∅, None)
      end
  end.

(** ** JSON values and [json.loads] *)

(** The Python object produced by [json.loads].  [JNull] is Python's
    [None]; a number keeps its lexeme; an object keeps its members in
    source order. *)
Inductive json : Type :=
| JNull
| JBool (b : bool)
| JNum (lexeme : string)
| JStr (s : string)
| JArr (items : list json)
| JObj (members : list (string * json)).

(** A recursive-descent reading of the grammar accepted by Python's
    [json.loads] (strict mode), on the modelled strings.  [\u] escapes are
    read when they denote a code point below 256. *)
Module Json.

Definition is_ws (c : ascii) : bool :=
  let n := N_of_ascii c in ((n =? 32) || (n =? 9) || (n =? 10) || (n =? 13))%N.

Fixpoint skip_ws (s : string) : string :=
  match s with
  | String c s' => if is_ws c then skip_ws s' else s
  | EmptyString => EmptyString
  end.

Definition is_digit (c : ascii) : bool :=
  let n := N_of_ascii c in ((48 <=? n) && (n <=? 57))%N.

(** The longest run of digits at the head of [s], and the rest. *)
Fixpoint digits (s : string) : string * string :=
  match s with
  | String c s' =>
      if is_digit c then let '(d, r) := digits s' in (String c d, r) else (EmptyString, s)
  | EmptyString => (EmptyString, EmptyString)
  end.

(** [s] without the prefix [p], when [s] starts with [p]. *)
Fixpoint drop_prefix (p s : string) : option string :=
  match p, s with
  | EmptyString, _ => Some s
  | String a p', String b s' => if Ascii.eqb a b then drop_prefix p' s' else None
  | String _ _, EmptyString => None
  end.

(** Integer part: [0] or a non-empty run of digits without a leading
    zero digit consumed past the first. *)
Definition int_part (s : string) : option (string * string) :=
  match s with
  | String "0" r => Some ("0", r)
  | _ => match digits s with
         | (EmptyString, _) => None
         | (d, r) => Some (d, r)
         end
  end.

Definition frac_part (s : string) : string * string :=
  match s with
  | String "." r =>
      match digits r with
      | (EmptyString, _) => (EmptyString, s)
      | (d, r') => (String "." d, r')
      end
  | _ => (EmptyString, s)
  end.

Definition exp_digits (mark : string) (s r : string) : string * string :=
  match digits r with
  | (EmptyString, _) => (EmptyString, s)
  | (d, r') => (mark +:+ d, r')
  end.

Definition exp_part (s : string) : string * string :=
  match s with
  | String "e" (String "+" r) => exp_digits "e+" s r
  | String "e" (String "-" r) => exp_digits "e-" s r
  | String "E" (String "+" r) => exp_digits "E+" s r
  | String "E" (String "-" r) => exp_digits "E-" s r
  | String "e" r => exp_digits "e" s r
  | String "E" r => exp_digits "E" s r
  | _ => (EmptyString, s)
  end.

(** An optional minus sign, an integer part, an optional fraction and an
    optional exponent, each matched as far as it goes. *)
Definition number (s : string) : option (json * string) :=
  let '(sign, s1) := match s with
                     | String "-" r => ("-", r)
                     | _ => (EmptyString, s)
                     end in
  match int_part s1 with
  | None => None
  | Some (i, s2) =>
      let '(f, s3) := frac_part s2 in
      let '(e, s4) := exp_part s3 in
      Some (JNum (sign +:+ i +:+ f +:+ e), s4)
  end.

Definition hex_digit (c : ascii) : option N :=
  let n := N_of_ascii c in
  if ((48 <=? n) && (n <=? 57))%N then Some (n - 48)%N
  else if ((65 <=? n) && (n <=? 70))%N then Some (n - 55)%N
  else if ((97 <=? n) && (n <=? 102))%N then Some (n - 87)%N
  else None.

(** The double quote character. *)
Definition dquote : ascii := ascii_of_N 34.

Definition cons_char (a : ascii) (o : option (string * string)) : option (string * string) :=
  (λ '(t, r), (String a t, r)) <$> o.

(** The body of a string literal, after its opening quote. *)
Fixpoint str_body (s : string) : option (string * string) :=
  match s with
  | EmptyString => None
  | String c r =>
      if Ascii.eqb c dquote then Some (EmptyString, r)
      else if Ascii.eqb c "\" then
        match r with
        | EmptyString => None
        | String e r1 =>
            if Ascii.eqb e dquote then cons_char dquote (str_body r1)
            else if Ascii.eqb e "\" then cons_char "\" (str_body r1)
            else if Ascii.eqb e "/" then cons_char "/" (str_body r1)
            else if Ascii.eqb e "b" then cons_char (ascii_of_N 8) (str_body r1)
            else if Ascii.eqb e "f" then cons_char (ascii_of_N 12) (str_body r1)
            else if Ascii.eqb e "n" then cons_char (ascii_of_N 10) (str_body r1)
            else if Ascii.eqb e "r" then cons_char (ascii_of_N 13) (str_body r1)
            else if Ascii.eqb e "t" then cons_char (ascii_of_N 9) (str_body r1)
            else if Ascii.eqb e "u" then
              match r1 with
              | String "0" (String "0" (String h (String l r2))) =>
                  match hex_digit h, hex_digit l with
                  | Some a, Some b => cons_char (ascii_of_N (16 * a + b)) (str_body r2)
                  | _, _ => None
                  end
              | _ => None
              end
            else None
        end
      else if (N_of_ascii c <? 32)%N then None
      else cons_char c (str_body r)
  end.

(** Elements of a non-empty array, after the opening bracket and the
    white space that follows it; [pv] reads one value. *)
Fixpoint elems (pv : string → option (json * string)) (k : nat) (s : string)
    (acc : list json) : option (list json * string) :=
  match k with
  | O => None
  | S k' =>
      match pv s with
      | None => None
      | Some (v, r) =>
          match skip_ws r with
          | String "," r' => elems pv k' (skip_ws r') (v :: acc)
          | String "]" r' => Some (rev (v :: acc), r')
          | _ => None
          end
      end
  end.

(** Members of a non-empty object, from the opening quote of a key. *)
Fixpoint members (pv : string → option (json * string)) (k : nat) (s : string)
    (acc : list (string * json)) : option (list (string * json) * string) :=
  match k, s with
  | S k', String c r =>
      match (if Ascii.eqb c dquote then str_body r else None) with
      | None => None
      | Some (key, r1) =>
          match skip_ws r1 with
          | String ":" r2 =>
              match pv (skip_ws r2) with
              | None => None
              | Some (v, r3) =>
                  match skip_ws r3 with
                  | String "," r4 => members pv k' (skip_ws r4) ((key, v) :: acc)
                  | String "}" r4 => Some (rev ((key, v) :: acc), r4)
                  | _ => None
                  end
              end
          | _ => None
          end
      end
  | _, _ => None
  end.

Definition literal (word : string) (v : json) (s : string) : option (json * string) :=
  (λ r, (v, r)) <$> drop_prefix word s.

(** One JSON value at the head of [s]; [fuel] bounds the nesting depth. *)
Fixpoint value (fuel : nat) (s : string) : option (json * string) :=
  match fuel with
  | O => None
  | S n =>
      match s with
      | String "{" r =>
          match skip_ws r with
          | String "}" r' => Some (JObj [], r')
          | r' => (λ '(ms, r''), (JObj ms, r'')) <$> members (value n) (String.length s) r' []
          end
      | String "[" r =>
          match skip_ws r with
          | String "]" r' => Some (JArr [], r')
          | r' => (λ '(vs, r''), (JArr vs, r'')) <$> elems (value n) (String.length s) r' []
          end
      | String "n" _ => literal "null" JNull s
      | String "t" _ => literal "true" (JBool true) s
      | String "f" _ => literal "false" (JBool false) s
      | String "N" _ => literal "NaN" (JNum "NaN") s
      | String "I" _ => literal "Infinity" (JNum "Infinity") s
      | String "-" (String "I" _) => literal "-Infinity" (JNum "-Infinity") s
      | String c r =>
          if Ascii.eqb c dquote then (λ '(t, r'), (JStr t, r')) <$> str_body r
          else number s
      | EmptyString => None
      end
  end.

(** [json.loads(s)]: [None] stands for a raised [JSONDecodeError]. *)
Definition loads (s : string) : option json :=
  match value (S (String.length s)) (skip_ws s) with
  | Some (v, r) => match skip_ws r with EmptyString => Some v | _ => None end
  | None => None
  end.

End Json.

(** ** Python dictionaries *)

Module PyDict.

(** [d.update(e)]: the entries of [e] win. *)
Definition update (d e : gmap string string) : gmap string string := e ∪ d.

(** [d.setdefault(k, v)], for its effect on [d]. *)
Definition setdefault (k v : string) (d : gmap string string) : gmap string string :=
  match d !! k with
  | Some _ => d
  | None => <[k := v]> d
  end.

(** [d or None] *)
Definition or_none (d : gmap string string) : option (gmap string string) :=
  if decide (d = ∅) then None else Some d.

End PyDict.

(** ** Validation model *)

Module RequestPreset.

Record t : Type := Build {
  name : string;
  method : string;
  url : string;
  headers : gmap string string;
  params : gmap string string;
  auth_type : string;
  bearer_token : option string;
  basic_user : option string;
  basic_pass : option string;
  body_mode : option string;
  body_raw : string;
  timeout_s : Q;
  verify_ssl : bool
}.

End RequestPreset.

(** ** The form *)

(** The values of the widgets in one run of the script.  A widget that is
    not drawn in a run (the body text areas, the credential inputs) has a
    value here that the script does not read. *)
Record form : Type := {
  selected_name : string;
  new_name : string;
  save_clicked : bool;
  method : string;
  url : string;
  timeout_s : Q;
  verify_ssl : bool;
  params_rows : list row;
  headers_rows : list row;
  mode_selection : string;
  json_body_area : string;
  raw_body_area : string;
  auth_type : string;
  bearer_input : string;
  username_input : string;
  password_input : string;
  submitted : bool
}.

(** The body tab: [(body_mode, body_raw)]. *)
Definition body_tab (f : form) : option string * string :=
  if String.eqb (method f) "GET" then (None, "")
  else
    let body_mode :=
      if negb (String.eqb (mode_selection f) "none") then Some (mode_selection f) else None in
    match body_mode with
    | Some m =>
        if String.eqb m "json" then (body_mode, json_body_area f)
        else if String.eqb m "raw" then (body_mode, raw_body_area f)
        else (body_mode, "")
    | None => (body_mode, "")
    end.

(** [m == s] for an optional string [m]. *)
Definition mode_is (m : option string) (s : string) : bool :=
  match m with
  | Some x => String.eqb x s
  | None => false
  end.

Definition body_mode (f : form) : option string := fst (body_tab f).
Definition body_raw (f : form) : string := snd (body_tab f).

(** The auth tab: [(bearer_token, basic_user, basic_pass)]. *)
Definition auth_tab (f : form) : option string * option string * option string :=
  if String.eqb (auth_type f) "Bearer" then (Some (bearer_input f), None, None)
  else if String.eqb (auth_type f) "Basic"
       then (None, Some (username_input f), Some (password_input f))
       else (None, None, None).

Definition bearer_token (f : form) : option string := fst (fst (auth_tab f)).
Definition basic_user (f : form) : option string := snd (fst (auth_tab f)).
Definition basic_pass (f : form) : option string := snd (auth_tab f).

(** ** Requests, responses and what the script shows *)

(** The arguments of [requests.request]. *)
Record request : Type := {
  r_method : string;
  r_url : string;
  r_params : option (gmap string string);
  r_headers : option (gmap string string);
  r_data : option string;
  r_json : json;
  r_auth : option (string * string);
  r_timeout : Q;
  r_verify : bool
}.

(** A response: [resp.headers] is a case-insensitive dictionary, keyed
    here by the lower-cased header name. *)
Record response : Type := {
  status_code : Z;
  resp_headers : gmap string string;
  text : string
}.

(** [resp.headers.get(k, d)] *)
Definition headers_get (resp : response) (k d : string) : string :=
  default d (resp_headers resp !! PyStr.lower k).

(** The effects of a run that the properties below speak about.  The
    metrics, the headers expander, the download button and the cURL
    preview take no decision and are left out. *)
Inductive event : Type :=
| StInfo (msg : string)
| StSuccess (msg : string)
| StError (msg : string)
| HttpCall (r : request)
| StJson (v : json)
| StText (s : string)
| StTextArea (s : string)
| PyRaise (exn : string).

Definition APPLICATION_JSON : string := "application/json".

(** ** The script *)

Section Script.

(** [json.loads]: [None] when it raises. *)
Variable json_loads : string → option json.

(** The constructor of the pydantic model: [Some msg] when
    [RequestPreset(...)] raises [ValidationError], [None] when it returns
    the model holding the given fields. *)
Variable validation_error : RequestPreset.t → option string.

(** [requests.request]: a [RequestException] or a response. *)
Variable http : request → string + response.

Definition try_parse_json (s : string) : json :=
  match json_loads s with
  | Some v => v
  | None => JNull
  end.

(** *** Presets *)

(** The "Load preset" block. *)
Definition load_block (f : form) (presets : list RequestPreset.t) : list event :=
  if negb (String.eqb (selected_name f) "—") then
    match List.find (λ p, String.eqb (RequestPreset.name p) (selected_name f)) presets with
    | Some sel => [StInfo ("Preset selected: " +:+ RequestPreset.name sel)]
    | None => []
    end
  else [].

(** The fields handed to [RequestPreset(...)]. *)
Definition preset_of_form (f : form) : RequestPreset.t :=
  RequestPreset.Build
    (PyStr.or_str (Some (PyStr.strip (new_name f))) "Preset")
    (method f)
    (url f)
    (kv_rows_to_dict (headers_rows f))
    (kv_rows_to_dict (params_rows f))
    (auth_type f)
    (bearer_token f)
    (basic_user f)
    (basic_pass f)
    (body_mode f)
    (body_raw f)
    (timeout_s f)
    (verify_ssl f).

(** [[p for p in presets if p.name != n]] *)
Definition without_name (n : string) (presets : list RequestPreset.t) : list RequestPreset.t :=
  List.filter (λ p, negb (String.eqb (RequestPreset.name p) n)) presets.

(** The "Save preset" block: the new store and what is shown. *)
Definition save_block (f : form) (presets : list RequestPreset.t)
  : list RequestPreset.t * list event :=
  if save_clicked f then
    let preset := preset_of_form f in
    match validation_error preset with
    | None =>
        ((without_name (RequestPreset.name preset) presets ++ [preset])%list,
         [StSuccess ("Saved preset: " +:+ RequestPreset.name preset)])
    | Some e => (presets, [StError e])
    end
  else (presets, []).

(** *** Sending *)

(** The assembly of the arguments of [requests.request]. *)
Definition build_request (f : form) : request :=
  let headers := kv_rows_to_dict (headers_rows f) in
  let params := kv_rows_to_dict (params_rows f) in
  let '(auth_headers, requests_auth) :=
    build_auth (auth_type f) (bearer_token f) (basic_user f) (basic_pass f) in
  let headers := PyDict.update headers auth_headers in
  let '(data, json_payload, headers) :=
    if mode_is (body_mode f) "json"
       && PyStr.truthy (PyStr.strip (body_raw f))
    then (None, try_parse_json (body_raw f),
          PyDict.setdefault "Content-Type" APPLICATION_JSON headers)
    else if mode_is (body_mode f) "raw"
    then (Some (body_raw f), JNull,
          PyDict.setdefault "Content-Type" "application/json" headers)
    else (None, JNull, headers) in
  {| r_method := method f;
     r_url := url f;
     r_params := PyDict.or_none params;
     r_headers := PyDict.or_none headers;
     r_data := data;
     r_json := json_payload;
     r_auth := requests_auth;
     r_timeout := timeout_s f;
     r_verify := verify_ssl f |}.

(** The body viewer.  [resp.json()] is [json.loads] of the decoded body. *)
Definition body_viewer (resp : response) : event :=
  let content_type := headers_get resp "Content-Type" "" in
  let show_as_json := PyStr.contains "application/json" content_type in
  if show_as_json then
    match json_loads (text resp) with
    | Some v => StJson v
    | None => StText (text resp)
    end
  else
    match try_parse_json (text resp) with
    | JNull => StTextArea (text resp)
    | parsed => StJson parsed
    end.

(** The URL check of the "Send request" block. *)
Definition url_ok (f : form) : bool := PyStr.startswith (PyStr.strip (url f)) "http".

(** The "Send request" block.  Its tail, past the check of the URL, shows
    the response once more and so reads [resp], which is unbound when the
    URL was refused.  [st.stop()] ends the run after a failed request.
    Streamlit's own checks on repeated widgets are not modelled. *)
Definition send_block (f : form) : list event :=
  if submitted f then
    if negb (url_ok f) then
      [StError "Invalid URL. Must start with http or https."; PyRaise "NameError"]
    else
      let req := build_request f in
      match http req with
      | inl e => [HttpCall req; StError ("Request failed: " +:+ e)]
      | inr resp => [HttpCall req; body_viewer resp; body_viewer resp]
      end
  else [].

(** One run of the script over the session's presets. *)
Definition script (f : form) (presets : list RequestPreset.t)
  : list RequestPreset.t * list event :=
  let ev1 := load_block f presets in
  let '(presets1, ev2) := save_block f presets in
  let ev3 := load_block f presets1 in
  let '(presets2, ev4) := save_block f presets1 in
  (presets2, (ev1 ++ ev2 ++ ev3 ++ ev4 ++ send_block f)%list).

End Script.

(** * Vocabulary of the properties *)

(** ** Key/value rows *)

(** Row [i] of [rows] is the last one whose trimmed key is [k], and its
    trimmed value is [v]. *)
Definition last_row_for (rows : list row) (k v : string) : Prop :=
  ∃ (i : nat) (r : row),
    rows !! i = Some r ∧ row_key r = k ∧ row_value r = v ∧
    ∀ (j : nat) (r' : row), (i < j)%nat → rows !! j = Some r' → row_key r' ≠ k.

(** ** Responses *)

(** Whether the response declares JSON. *)
Definition declares_json (resp : response) : bool :=
  PyStr.contains "application/json" (headers_get resp "Content-Type" "").

(** A response with one header. *)
Definition response_with (content_type body : string) : response :=
  {| status_code := 200;
     resp_headers := {[ PyStr.lower "Content-Type" := content_type ]};
     text := body |}.

(** ** Submissions *)

(** The message of the URL check. *)
Definition invalid_url_msg : string := "Invalid URL. Must start with http or https.".

(** A list of events holds no HTTP call. *)
Definition no_http_call (evs : list event) : Prop := ∀ r : request, HttpCall r ∉ evs.

(** The headers after [headers.update(auth_headers)]. *)
Definition merged_headers (f : form) : gmap string string :=
  PyDict.update (kv_rows_to_dict (headers_rows f))
    (build_auth (auth_type f) (bearer_token f) (basic_user f) (basic_pass f)).1.

(** The URL check lets the submission through. *)
Definition accepted (json_loads : string → option json) (http : request → string + response)
    (f : form) : Prop :=
  StError invalid_url_msg ∉ send_block json_loads http f.

(** ** The session's presets *)

(** [[p.name for p in presets]] *)
Definition preset_names (presets : list RequestPreset.t) : list string :=
  RequestPreset.name <$> presets.

(** [[p for p in presets if p.name == n]] *)
Definition with_name (n : string) (presets : list RequestPreset.t) : list RequestPreset.t :=
  List.filter (λ p, String.eqb (RequestPreset.name p) n) presets.

Section Session.

Variable json_loads : string → option json.
Variable validation_error : RequestPreset.t → option string.
Variable http : request → string + response.

(** The session's presets after one run of the script. *)
Definition presets_after (f : form) (presets : list RequestPreset.t) : list RequestPreset.t :=
  (script json_loads validation_error http f presets).1.

(** The stores that a session can hold: it starts empty and each run of
    the script, on any form, takes it one step further. *)
Inductive reachable : list RequestPreset.t → Prop :=
| reachable_init : reachable []
| reachable_run (f : form) (presets : list RequestPreset.t) :
    reachable presets → reachable (presets_after f presets).

End Session.

(** ** Sample inputs *)

(** A form with nothing filled in but the method and the URL. *)
Definition bare_form (m u : string) : form :=
  {| selected_name := "—"; new_name := ""; save_clicked := false;
     method := m; url := u; timeout_s := 20; verify_ssl := true;
     params_rows := []; headers_rows := [];
     mode_selection := "none"; json_body_area := ""; raw_body_area := "";
     auth_type := "None"; bearer_input := ""; username_input := ""; password_input := "";
     submitted := true |}.

(** An executor that fails to connect. *)
Definition refused : request → string + response := λ _, inl "connection refused".

(** A [POST] whose JSON body does not parse, with a [Content-Type] row. *)
Definition malformed_form : form :=
  {| selected_name := "—"; new_name := ""; save_clicked := false;
     method := "POST"; url := "https://api.example.com/v1/resource";
     timeout_s := 20; verify_ssl := true;
     params_rows := []; headers_rows := [mk_row "Content-Type" "text/json"];
     mode_selection := "json"; json_body_area := "{ example: true"; raw_body_area := "";
     auth_type := "None"; bearer_input := ""; username_input := ""; password_input := "";
     submitted := true |}.

(** A constructor that accepts its fields, as pydantic does for fields
    that already have their declared types, and one that refuses them. *)
Definition accepts : RequestPreset.t → option string := λ _, None.
Definition refuses : RequestPreset.t → option string :=
  λ _, Some "1 validation error for RequestPreset".

(** The form of a click on "Save preset" with a name and a raw body. *)
Definition save_form (n body : string) : form :=
  {| selected_name := "—"; new_name := n; save_clicked := true;
     method := "POST"; url := "https://host"; timeout_s := 20; verify_ssl := true;
     params_rows := []; headers_rows := [];
     mode_selection := "raw"; json_body_area := ""; raw_body_area := body;
     auth_type := "None"; bearer_input := ""; username_input := ""; password_input := "";
     submitted := false |}.

(** A store with two presets, ["X"] first. *)
Definition two_presets : list RequestPreset.t :=
  presets_after Json.loads accepts refused (save_form "Y" "y")
    (presets_after Json.loads accepts refused (save_form "X" "first") []).

(** ** Further vocabulary *)

(** The row [{"key": k, "value": v}] of the trimmed key and value of [r]. *)
Definition trimmed_row (r : row) : row := mk_row (row_key r) (row_value r).

(** [next((p for p in presets if p.name == n), None)] *)
Definition find_preset (n : string) (presets : list RequestPreset.t) : option RequestPreset.t :=
  List.find (λ p, String.eqb (RequestPreset.name p) n) presets.

Definition is_http_call (ev : event) : bool :=
  match ev with HttpCall _ => true | _ => false end.

(** The number of HTTP calls among the events of a run. *)
Definition http_calls (evs : list event) : nat := length (List.filter is_http_call evs).

(** The events by which the body viewer shows a body. *)
Definition is_body_event (ev : event) : bool :=
  match ev with StJson _ | StText _ | StTextArea _ => true | _ => false end.

(** A filled-in form for a [POST]. *)
Definition post_form (rows : list row) (mode json_text raw_text auth token user pass : string)
  : form :=
  {| selected_name := "—"; new_name := ""; save_clicked := false;
     method := "POST"; url := "https://host/items"; timeout_s := 20; verify_ssl := true;
     params_rows := []; headers_rows := rows;
     mode_selection := mode; json_body_area := json_text; raw_body_area := raw_text;
     auth_type := auth; bearer_input := token; username_input := user;
     password_input := pass; submitted := true |}.

(** An executor that answers every request with the same response. *)
Definition answers (resp : response) : request → string + response := λ _, inr resp.

(** * Properties *)

(** ** Strings *)

Module PyStrFacts.
Import PyStr.

Lemma truthy_true (s : string) : truthy s = true ↔ s ≠ "".
Proof. destruct s; simpl; split; intros; congruence. Qed.

Lemma truthy_false (s : string) : truthy s = false ↔ s = "".
Proof. destruct s; simpl; split; intros; congruence. Qed.

Lemma lstrip_first (s : string) (c : ascii) :
  first (lstrip s) = Some c → isspace c = false.
Proof.
  induction s as [|a s IH]; simpl; [discriminate|].
  destruct (isspace a) eqn:Ha; [exact IH|].
  simpl. intros [= <-]. exact Ha.
Qed.

Lemma rstrip_first (s : string) (c : ascii) :
  first s = Some c → isspace c = false → first (rstrip s) = Some c.
Proof.
  destruct s as [|a s]; simpl; [discriminate|].
  intros [= ->] Hc. destruct (rstrip s); [rewrite Hc|]; reflexivity.
Qed.

Lemma rstrip_first_inv (s : string) (c : ascii) :
  first (rstrip s) = Some c → first s = Some c.
Proof.
  destruct s as [|a s]; simpl; [discriminate|].
  destruct (rstrip s); [destruct (isspace a)|]; simpl; congruence.
Qed.

Lemma rstrip_last (s : string) (c : ascii) :
  last (rstrip s) = Some c → isspace c = false.
Proof.
  induction s as [|a s IH]; simpl; [discriminate|].
  destruct (rstrip s) as [|b r] eqn:Hr.
  - destruct (isspace a) eqn:Ha; simpl; [discriminate|]. intros [= <-]. exact Ha.
  - intros H. apply IH. exact H.
Qed.

(** No white space is left at either end of [s.strip()]. *)
Lemma strip_trimmed (s : string) : trimmed (strip s).
Proof.
  split; intros c H.
  - apply rstrip_first_inv in H. eapply lstrip_first, H.
  - eapply rstrip_last, H.
Qed.

Lemma lstrip_id (s : string) :
  (∀ c, first s = Some c → isspace c = false) → lstrip s = s.
Proof.
  destruct s as [|a s]; simpl; [reflexivity|].
  intros H. rewrite (H a eq_refl). reflexivity.
Qed.

Lemma rstrip_idem (s : string) : rstrip (rstrip s) = rstrip s.
Proof.
  induction s as [|a s IH]; simpl; [reflexivity|].
  destruct (rstrip s) as [|b r] eqn:Hr.
  - destruct (isspace a) eqn:Ha; simpl; [reflexivity|]. rewrite Ha. reflexivity.
  - simpl. simpl in IH. rewrite IH. reflexivity.
Qed.

(** Stripping twice strips once. *)
Lemma strip_idem (s : string) : strip (strip s) = strip s.
Proof.
  unfold strip at 1. rewrite lstrip_id; [apply rstrip_idem|].
  apply (strip_trimmed s).
Qed.

Lemma startswith_spec (s p : string) :
  startswith s p = true ↔ ∃ t, s = p +:+ t.
Proof.
  revert s. induction p as [|a p IH]; intros s; simpl.
  - split; [intros _; exists s; reflexivity | reflexivity].
  - destruct s as [|b s].
    + split; [discriminate | intros [t H]; discriminate].
    + destruct (Ascii.eqb_spec a b) as [->|Hne].
      * rewrite IH. split; intros [t H]; exists t.
        -- rewrite H. reflexivity.
        -- change (String b s = String b (p +:+ t)) in H. congruence.
      * split; [discriminate|]. intros [t H].
        change (String b s = String a (p +:+ t)) in H. congruence.
Qed.

End PyStrFacts.

(** ** KeyValueCollector *)

Lemma kv_rows_to_dict_snoc (rows : list row) (r : row) :
  kv_rows_to_dict (rows ++ [r])%list = kv_step (kv_rows_to_dict rows) r.
Proof. unfold kv_rows_to_dict. rewrite fold_left_app. reflexivity. Qed.

(** A row with another key at the end changes nothing for [k]. *)
Lemma last_row_for_snoc_ne (rows : list row) (r : row) (k v : string) :
  row_key r ≠ k →
  last_row_for (rows ++ [r])%list k v ↔ last_row_for rows k v.
Proof.
  intros Hne. split; intros (i & r0 & Hi & Hk & Hv & Hlast).
  - destruct (decide (i < length rows)%nat) as [Hlt|Hge].
    + exists i, r0. rewrite lookup_app_l in Hi by exact Hlt.
      repeat split; try assumption.
      intros j r' Hij Hj. apply (Hlast j r' Hij).
      rewrite lookup_app_l; [exact Hj|]. eapply lookup_lt_Some, Hj.
    + rewrite lookup_app_r in Hi by lia.
      destruct (i - length rows)%nat; simpl in Hi; [|discriminate].
      injection Hi as <-. contradiction.
  - exists i, r0. pose proof (lookup_lt_Some _ _ _ Hi) as Hlt.
    rewrite lookup_app_l by exact Hlt.
    repeat split; try assumption.
    intros j r' Hij Hj.
    destruct (decide (j < length rows)%nat) as [Hjl|Hjg].
    + rewrite lookup_app_l in Hj by exact Hjl. eapply Hlast; eassumption.
    + rewrite lookup_app_r in Hj by lia.
      destruct (j - length rows)%nat; simpl in Hj; [|discriminate].
      injection Hj as <-. exact Hne.
Qed.

(** A row with key [k] at the end is the last row for [k]. *)
Lemma last_row_for_snoc_eq (rows : list row) (r : row) (v : string) :
  last_row_for (rows ++ [r])%list (row_key r) v ↔ v = row_value r.
Proof.
  split.
  - intros (i & r0 & Hi & Hk & Hv & Hlast).
    destruct (decide (i < length rows)%nat) as [Hlt|Hge].
    + exfalso. apply (Hlast (length rows) r Hlt); [|reflexivity].
      rewrite lookup_app_r by lia. rewrite Nat.sub_diag. reflexivity.
    + rewrite lookup_app_r in Hi by lia.
      destruct (i - length rows)%nat; simpl in Hi; [|discriminate].
      injection Hi as <-. congruence.
  - intros ->. exists (length rows), r. repeat split.
    + rewrite lookup_app_r by lia. rewrite Nat.sub_diag. reflexivity.
    + intros j r' Hj Hl. apply lookup_lt_Some in Hl.
      rewrite length_app in Hl. simpl in Hl. lia.
Qed.

(** The mapping holds, for each key, the value of the last row with it. *)
Lemma kv_rows_to_dict_lookup (rows : list row) (k v : string) :
  kv_rows_to_dict rows !! k = Some v ↔ k ≠ "" ∧ last_row_for rows k v.
Proof.
  revert k v. induction rows as [|r rows IH] using rev_ind; intros k v.
  - unfold kv_rows_to_dict. simpl. rewrite lookup_empty.
    split; [discriminate|]. intros (_ & i & r & Hi & _). discriminate.
  - rewrite kv_rows_to_dict_snoc. unfold kv_step.
    destruct (PyStr.truthy (row_key r)) eqn:Ht.
    + apply PyStrFacts.truthy_true in Ht.
      destruct (decide (row_key r = k)) as [<-|Hne].
      * rewrite lookup_insert_eq, last_row_for_snoc_eq.
        split; [intros [= <-]; split; [exact Ht|reflexivity] | intros [_ ->]; reflexivity].
      * rewrite lookup_insert_ne by exact Hne.
        rewrite last_row_for_snoc_ne by exact Hne. apply IH.
    + apply PyStrFacts.truthy_false in Ht. rewrite IH.
      split; intros [Hk H]; (split; [exact Hk|]);
        apply (last_row_for_snoc_ne rows r k v); congruence.
Qed.

Lemma row_key_trimmed (r : row) : PyStr.trimmed (row_key r).
Proof. apply PyStrFacts.strip_trimmed. Qed.

Lemma row_value_trimmed (r : row) : PyStr.trimmed (row_value r).
Proof. apply PyStrFacts.strip_trimmed. Qed.

(** C3: for every list of rows [kv_rows_to_dict] returns a mapping (it is
    a total function) without the empty key, in which every key and every
    value is trimmed, and which holds under [k] the value [v] exactly when
    [k] is the non-empty trimmed key of some row, no later row has that
    trimmed key, and [v] is the trimmed value of that row: rows with an
    empty trimmed key are dropped and the last row of a key wins. *)
Theorem kv_rows_to_dict_spec (rows : list row) :
  kv_rows_to_dict rows !! "" = None ∧
  (∀ k v : string, kv_rows_to_dict rows !! k = Some v →
     PyStr.trimmed k ∧ PyStr.trimmed v ∧ PyStr.strip k = k ∧ PyStr.strip v = v) ∧
  (∀ k v : string, kv_rows_to_dict rows !! k = Some v ↔ k ≠ "" ∧ last_row_for rows k v).
Proof.
  split; [|split].
  - destruct (kv_rows_to_dict rows !! "") as [v|] eqn:H; [|reflexivity].
    apply kv_rows_to_dict_lookup in H. destruct H as [H _]. contradiction.
  - intros k v H. apply kv_rows_to_dict_lookup in H.
    destruct H as (_ & i & r & _ & <- & <- & _).
    repeat split; try apply PyStrFacts.strip_trimmed; apply PyStrFacts.strip_idem.
  - apply kv_rows_to_dict_lookup.
Qed.

(** The example of the specification: two rows for ["a"] and one row with
    an empty key. *)
Example kv_rows_to_dict_example :
  kv_rows_to_dict [mk_row "a" "1"; mk_row "a" "2"; mk_row "" "x"] = {[ "a" := "2" ]}.
Proof. vm_compute. reflexivity. Qed.

(** Keys and values are trimmed before they are compared and stored; a
    row without a key entry, or with [None] under it, is dropped. *)
Example kv_rows_to_dict_trims :
  kv_rows_to_dict [mk_row " a" " 1 "; mk_row "a  " "2 "; mk_row "   " "x";
                   {[ "value" := Some "y" ]}; {[ "key" := None ]}]
  = {[ "a" := "2" ]}.
Proof. vm_compute. reflexivity. Qed.

(** ** AuthResolver *)

Lemma or_str_default (p : option string) : PyStr.or_str p "" = default "" p.
Proof. destruct p as [[|c s]|]; reflexivity. Qed.

(** The headers that [build_auth] adds name nothing but [Authorization]. *)
Lemma build_auth_headers_other (auth_type : string) (b u p : option string) (k : string) :
  k ≠ "Authorization" → (build_auth auth_type b u p).1 !! k = None.
Proof.
  intros Hk. unfold build_auth.
  destruct (String.eqb auth_type "Bearer"), b as [[|c tok]|];
    destruct (String.eqb auth_type "Basic"), u; simpl;
    rewrite ?lookup_empty; try reflexivity;
    apply lookup_singleton_ne; congruence.
Qed.

(** C6: [build_auth] is a function defined on all its inputs; auth type
    [None] gives no header and no credentials; [Bearer] with a non-empty
    token gives exactly the header [Authorization: Bearer <token>] and no
    credentials, and with an empty or an absent token it gives what [None]
    gives; [Basic] with a user name gives no header and the credentials
    (user, password or the empty string), and without a user name it gives
    what [None] gives. *)
Theorem build_auth_spec :
  (∀ b u p : option string, build_auth "None" b u p = (∅, None)) ∧
  (∀ (c : ascii) (tok : string) (u p : option string),
     build_auth "Bearer" (Some (String c tok)) u p
     = ({[ "Authorization" := "Bearer " +:+ String c tok ]}, None)) ∧
  (∀ u p : option string,
     build_auth "Bearer" (Some "") u p = build_auth "None" (Some "") u p ∧
     build_auth "Bearer" None u p = build_auth "None" None u p) ∧
  (∀ (b : option string) (user : string) (p : option string),
     build_auth "Basic" b (Some user) p = (∅, Some (user, default "" p))) ∧
  (∀ b p : option string, build_auth "Basic" b None p = build_auth "None" b None p).
Proof.
  repeat split; intros; unfold build_auth; simpl; try reflexivity.
  rewrite or_str_default. reflexivity.
Qed.

Example build_auth_bearer :
  build_auth "Bearer" (Some "tok") None None = ({[ "Authorization" := "Bearer tok" ]}, None).
Proof. reflexivity. Qed.

Example build_auth_basic_no_password :
  build_auth "Basic" None (Some "alice") None = (∅, Some ("alice", "")).
Proof. reflexivity. Qed.

(** ** ResponseInterpreter *)

Section Viewer.

Variable json_loads : string → option json.

(** First tier: a declared JSON body is shown structured whenever it
    parses, and as its raw text otherwise. *)
Lemma body_viewer_declared (resp : response) :
  declares_json resp = true →
  body_viewer json_loads resp =
    match json_loads (text resp) with
    | Some v => StJson v
    | None => StText (text resp)
    end.
Proof. unfold body_viewer, declares_json. intros ->. reflexivity. Qed.

(** Second tier: an undeclared body goes through [try_parse_json], whose
    result is shown structured unless it is [None]. *)
Lemma body_viewer_undeclared (resp : response) :
  declares_json resp = false →
  (json_loads (text resp) = None → body_viewer json_loads resp = StTextArea (text resp)) ∧
  (∀ v, json_loads (text resp) = Some v → v ≠ JNull → body_viewer json_loads resp = StJson v) ∧
  (json_loads (text resp) = Some JNull → body_viewer json_loads resp = StTextArea (text resp)).
Proof.
  unfold body_viewer, declares_json, try_parse_json. intros ->.
  repeat split.
  - intros ->. reflexivity.
  - intros v -> Hv. destruct v; congruence.
  - intros ->. reflexivity.
Qed.

End Viewer.

(** The examples of the specification. *)
Example body_viewer_declared_object :
  body_viewer Json.loads (response_with "application/json" ("{" +:+ quoted "a" +:+ ":1}"))
  = StJson (JObj [("a", JNum "1")]).
Proof. vm_compute. reflexivity. Qed.

Example body_viewer_undeclared_object :
  body_viewer Json.loads (response_with "text/plain" ("{" +:+ quoted "a" +:+ ":1}"))
  = StJson (JObj [("a", JNum "1")]).
Proof. vm_compute. reflexivity. Qed.

Example body_viewer_not_json :
  body_viewer Json.loads (response_with "application/json; charset=utf-8" "not json")
  = StText "not json" ∧
  body_viewer Json.loads (response_with "text/html" "not json") = StTextArea "not json".
Proof. split; vm_compute; reflexivity. Qed.

(** C1: the body ["null"] parses, to JSON [null].  Under a content type
    that declares JSON the viewer shows it structured; under a content
    type that does not, the same successful parse is shown as plain text,
    against the second tier of the policy. *)
Theorem body_viewer_null_undeclared :
  Json.loads "null" = Some JNull ∧
  declares_json (response_with "text/plain" "null") = false ∧
  body_viewer Json.loads (response_with "text/plain" "null") = StTextArea "null" ∧
  body_viewer Json.loads (response_with "application/json" "null") = StJson JNull.
Proof. repeat split; vm_compute; reflexivity. Qed.

(** C10: [try_parse_json] returns [None] both when the parse fails and
    when it succeeds with JSON [null]; so for every response that does not
    declare JSON and whose body parses to [null], the viewer takes the
    plain-text branch.  The body ["null"] is such a body. *)
Theorem try_parse_json_null_is_failure (json_loads : string → option json) :
  (∀ s : string, json_loads s = None → try_parse_json json_loads s = JNull) ∧
  (∀ s : string, json_loads s = Some JNull → try_parse_json json_loads s = JNull) ∧
  (∀ resp : response,
     declares_json resp = false → json_loads (text resp) = Some JNull →
     body_viewer json_loads resp = StTextArea (text resp)) ∧
  Json.loads "null" = Some JNull ∧
  body_viewer Json.loads {| status_code := 200; resp_headers := ∅; text := "null" |}
  = StTextArea "null".
Proof.
  split; [|split; [|split; [|split]]].
  - intros s H. unfold try_parse_json. rewrite H. reflexivity.
  - intros s H. unfold try_parse_json. rewrite H. reflexivity.
  - intros resp Hd Hn. apply (body_viewer_undeclared json_loads resp Hd). exact Hn.
  - reflexivity.
  - vm_compute. reflexivity.
Qed.

(** ** RequestBuilder *)

Lemma merged_headers_content_type (f : form) :
  merged_headers f !! "Content-Type" = kv_rows_to_dict (headers_rows f) !! "Content-Type".
Proof.
  unfold merged_headers, PyDict.update.
  apply lookup_union_r, build_auth_headers_other. discriminate.
Qed.

Lemma setdefault_lookup (k v : string) (d : gmap string string) :
  PyDict.setdefault k v d !! k = Some (default v (d !! k)).
Proof.
  unfold PyDict.setdefault. destruct (d !! k) as [w|] eqn:H; simpl.
  - exact H.
  - apply lookup_insert_eq.
Qed.

Lemma setdefault_lookup_ne (k v k' : string) (d : gmap string string) :
  k ≠ k' → PyDict.setdefault k v d !! k' = d !! k'.
Proof.
  intros Hne. unfold PyDict.setdefault. destruct (d !! k); [reflexivity|].
  apply lookup_insert_ne, Hne.
Qed.

Lemma or_none_setdefault (k v : string) (d : gmap string string) :
  PyDict.or_none (PyDict.setdefault k v d) = Some (PyDict.setdefault k v d).
Proof.
  unfold PyDict.or_none. case_decide as H; [|reflexivity].
  pose proof (setdefault_lookup k v d) as Hl. rewrite H, lookup_empty in Hl. discriminate.
Qed.

Lemma or_none_lookup (d : gmap string string) (k : string) :
  from_option (λ h, h !! k) None (PyDict.or_none d) = d !! k.
Proof.
  unfold PyDict.or_none. case_decide as H; simpl; [|reflexivity].
  rewrite H, lookup_empty. reflexivity.
Qed.

Section Send.

Variable json_loads : string → option json.
Variable http : request → string + response.

Lemma build_request_eq (f : form) :
  build_request json_loads f =
  let headers := merged_headers f in
  let json_mode :=
    mode_is (body_mode f) "json" && PyStr.truthy (PyStr.strip (body_raw f)) in
  let raw_mode := mode_is (body_mode f) "raw" in
  {| r_method := method f;
     r_url := url f;
     r_params := PyDict.or_none (kv_rows_to_dict (params_rows f));
     r_headers :=
       PyDict.or_none
         (if json_mode || raw_mode
          then PyDict.setdefault "Content-Type" "application/json" headers
          else headers);
     r_data := if json_mode then None else if raw_mode then Some (body_raw f) else None;
     r_json := if json_mode then try_parse_json json_loads (body_raw f) else JNull;
     r_auth := (build_auth (auth_type f) (bearer_token f) (basic_user f) (basic_pass f)).2;
     r_timeout := timeout_s f;
     r_verify := verify_ssl f |}.
Proof.
  unfold build_request, merged_headers.
  destruct (build_auth _ _ _ _) as [auth_headers requests_auth]. simpl.
  destruct (mode_is (body_mode f) "json" && PyStr.truthy (PyStr.strip (body_raw f)));
    [reflexivity|].
  destruct (mode_is (body_mode f) "raw"); reflexivity.
Qed.

(** What the "Send request" block does on either side of the URL check. *)
Lemma send_block_refused (f : form) :
  submitted f = true → url_ok f = false →
  send_block json_loads http f = [StError invalid_url_msg; PyRaise "NameError"].
Proof. unfold send_block. intros -> ->. reflexivity. Qed.

Lemma send_block_accepted (f : form) :
  submitted f = true → url_ok f = true →
  send_block json_loads http f =
    HttpCall (build_request json_loads f) ::
    match http (build_request json_loads f) with
    | inl e => [StError ("Request failed: " +:+ e)]
    | inr resp => [body_viewer json_loads resp; body_viewer json_loads resp]
    end.
Proof.
  unfold send_block. intros -> ->. simpl.
  destruct (http (build_request json_loads f)); reflexivity.
Qed.

Lemma url_ok_spec (f : form) :
  url_ok f = true ↔ ∃ t : string, PyStr.strip (url f) = "http" +:+ t.
Proof. apply PyStrFacts.startswith_spec. Qed.

(** The invalid-URL error is shown exactly when the URL check fails. *)
Lemma invalid_url_shown (f : form) :
  submitted f = true →
  StError invalid_url_msg ∈ send_block json_loads http f ↔ url_ok f = false.
Proof.
  intros Hs. destruct (url_ok f) eqn:Hu.
  - rewrite (send_block_accepted f Hs Hu). split; [|discriminate].
    intros H. exfalso.
    destruct (http (build_request json_loads f)) as [e|resp].
    + apply elem_of_cons in H as [H|H]; [discriminate|].
      apply list_elem_of_singleton in H. injection H as H. discriminate.
    + unfold body_viewer in H.
      repeat (apply elem_of_cons in H as [H|H];
              [repeat (destruct (json_loads _) || destruct (try_parse_json _ _)
                       || destruct (PyStr.contains _ _)); discriminate|]).
      inversion H.
  - rewrite (send_block_refused f Hs Hu). split; [reflexivity|].
    intros _. apply list_elem_of_here.
Qed.

End Send.

(** C2: with body mode [json], a non-blank body text and a failed parse,
    a submission that passes the URL check is sent: the HTTP call is made
    with [json=None] and [data=None], and its headers are the merged
    headers after [setdefault("Content-Type", "application/json")], so a
    [Content-Type] given by the user is kept and [application/json] is
    there otherwise. *)
Theorem malformed_json_body_is_sent_empty
    (json_loads : string → option json) (http : request → string + response) (f : form) :
  submitted f = true →
  url_ok f = true →
  body_mode f = Some "json" →
  PyStr.strip (body_raw f) ≠ "" →
  json_loads (body_raw f) = None →
  let req := build_request json_loads f in
  (∃ rest, send_block json_loads http f = HttpCall req :: rest) ∧
  r_json req = JNull ∧
  r_data req = None ∧
  r_headers req = Some (PyDict.setdefault "Content-Type" "application/json" (merged_headers f)) ∧
  (∀ h, r_headers req = Some h →
     h !! "Content-Type"
     = Some (default "application/json" (kv_rows_to_dict (headers_rows f) !! "Content-Type")) ∧
     ∀ k, k ≠ "Content-Type" → h !! k = merged_headers f !! k).
Proof.
  intros Hs Hu Hm Hb Hp req.
  assert (Hreq : r_json req = JNull ∧ r_data req = None ∧
    r_headers req = Some (PyDict.setdefault "Content-Type" "application/json" (merged_headers f))).
  { subst req. rewrite build_request_eq. simpl. rewrite Hm. simpl.
    apply PyStrFacts.truthy_true in Hb. rewrite Hb. simpl.
    unfold try_parse_json. rewrite Hp, or_none_setdefault. auto. }
  destruct Hreq as (Hj & Hd & Hh).
  split; [|split; [|split; [|split]]]; try assumption.
  - rewrite (send_block_accepted json_loads http f Hs Hu). eexists. reflexivity.
  - intros h Hh'. rewrite Hh in Hh'. injection Hh' as <-. split.
    + rewrite setdefault_lookup, merged_headers_content_type. reflexivity.
    + intros k Hk. apply setdefault_lookup_ne. congruence.
Qed.

Lemma malformed_json_body_is_sent_empty_witness :
  let req := build_request Json.loads malformed_form in
  (∃ rest, send_block Json.loads refused malformed_form = HttpCall req :: rest) ∧
  r_json req = JNull ∧
  r_data req = None ∧
  r_headers req
  = Some (PyDict.setdefault "Content-Type" "application/json" (merged_headers malformed_form)) ∧
  (∀ h, r_headers req = Some h →
     h !! "Content-Type"
     = Some (default "application/json"
               (kv_rows_to_dict (headers_rows malformed_form) !! "Content-Type")) ∧
     ∀ k, k ≠ "Content-Type" → h !! k = merged_headers malformed_form !! k).
Proof.
  apply (malformed_json_body_is_sent_empty Json.loads refused malformed_form);
    vm_compute; congruence.
Defined.

(** The user's [Content-Type] survives, the malformed text is not sent. *)
Example malformed_form_request :
  send_block Json.loads refused malformed_form
  = [HttpCall {| r_method := "POST"; r_url := "https://api.example.com/v1/resource";
                 r_params := None;
                 r_headers := Some {[ "Content-Type" := "text/json" ]};
                 r_data := None; r_json := JNull; r_auth := None;
                 r_timeout := 20; r_verify := true |};
     StError "Request failed: connection refused"].
Proof. vm_compute. reflexivity. Qed.

(** C4: a submission shows the invalid-URL error exactly when the trimmed
    URL does not start with [http]; when it does show it, nothing else
    has happened before, no request is built and no HTTP call is made;
    otherwise the first thing that happens is the HTTP call. *)
Theorem invalid_url_rejected
    (json_loads : string → option json) (http : request → string + response) (f : form) :
  submitted f = true →
  (StError invalid_url_msg ∈ send_block json_loads http f
   ↔ ¬ ∃ t : string, PyStr.strip (url f) = "http" +:+ t) ∧
  ((¬ ∃ t : string, PyStr.strip (url f) = "http" +:+ t) →
   (∃ rest, send_block json_loads http f = StError invalid_url_msg :: rest) ∧
   no_http_call (send_block json_loads http f)) ∧
  ((∃ t : string, PyStr.strip (url f) = "http" +:+ t) →
   ∃ rest, send_block json_loads http f = HttpCall (build_request json_loads f) :: rest).
Proof.
  intros Hs. rewrite <- url_ok_spec, (invalid_url_shown json_loads http f Hs).
  split; [|split].
  - destruct (url_ok f); split; congruence.
  - intros Hu. apply not_true_is_false in Hu.
    rewrite (send_block_refused json_loads http f Hs Hu). split; [eexists; reflexivity|].
    intros r H. apply elem_of_cons in H as [H|H]; [discriminate|].
    apply list_elem_of_singleton in H. discriminate.
  - intros Hu. rewrite (send_block_accepted json_loads http f Hs Hu). eexists. reflexivity.
Qed.

Lemma invalid_url_rejected_witness :
  let f := bare_form "GET" "ftp://host" in
  (StError invalid_url_msg ∈ send_block Json.loads refused f
   ↔ ¬ ∃ t : string, PyStr.strip (url f) = "http" +:+ t) ∧
  ((¬ ∃ t : string, PyStr.strip (url f) = "http" +:+ t) →
   (∃ rest, send_block Json.loads refused f = StError invalid_url_msg :: rest) ∧
   no_http_call (send_block Json.loads refused f)) ∧
  ((∃ t : string, PyStr.strip (url f) = "http" +:+ t) →
   ∃ rest, send_block Json.loads refused f = HttpCall (build_request Json.loads f) :: rest).
Proof. apply (invalid_url_rejected Json.loads refused (bare_form "GET" "ftp://host")). reflexivity. Defined.

(** The examples of the specification for the URL check. *)
Example url_check_examples :
  url_ok (bare_form "GET" "ftp://host") = false ∧
  url_ok (bare_form "GET" "https://host") = true ∧
  url_ok (bare_form "GET" "http://host") = true ∧
  url_ok (bare_form "GET" "  http://host ") = true.
Proof. repeat split. Qed.

Example ftp_url_refused :
  send_block Json.loads refused (bare_form "GET" "ftp://host")
  = [StError invalid_url_msg; PyRaise "NameError"].
Proof. reflexivity. Qed.

(** C5, as stated, fails: ["httpx://host"] starts with neither [http://]
    nor [https://], and the submission goes through to the HTTP call. *)
Lemma accepted_url_without_http_scheme :
  let f := bare_form "GET" "httpx://host" in
  submitted f = true ∧
  PyStr.startswith (PyStr.strip (url f)) "http://" = false ∧
  PyStr.startswith (PyStr.strip (url f)) "https://" = false ∧
  accepted Json.loads refused f ∧
  send_block Json.loads refused f
  = [HttpCall (build_request Json.loads f); StError "Request failed: connection refused"].
Proof.
  repeat split. unfold accepted. vm_compute. intros Hin.
  apply elem_of_cons in Hin as [Hin|Hin]; [discriminate|].
  apply list_elem_of_singleton in Hin. discriminate.
Qed.

Example httpx_url_is_sent :
  send_block Json.loads refused (bare_form "GET" "httpx://host")
  = [HttpCall (build_request Json.loads (bare_form "GET" "httpx://host"));
     StError "Request failed: connection refused"].
Proof. reflexivity. Qed.

(** C5, amended: a submission is accepted exactly when the trimmed URL
    starts with [http]; so every accepted URL starts, once trimmed, with
    [http], every URL whose trimmed form does not is rejected, and every
    URL whose trimmed form starts with [http://] or [https://] is
    accepted. *)
Theorem accepted_url_starts_with_http
    (json_loads : string → option json) (http : request → string + response) (f : form) :
  submitted f = true →
  (accepted json_loads http f ↔ ∃ t : string, PyStr.strip (url f) = "http" +:+ t) ∧
  (PyStr.startswith (PyStr.strip (url f)) "http" = false → ¬ accepted json_loads http f) ∧
  (PyStr.startswith (PyStr.strip (url f)) "http://" = true
   ∨ PyStr.startswith (PyStr.strip (url f)) "https://" = true →
   accepted json_loads http f).
Proof.
  intros Hs. unfold accepted.
  rewrite (invalid_url_shown json_loads http f Hs), <- url_ok_spec.
  split; [|split].
  - destruct (url_ok f); split; congruence.
  - unfold url_ok. intros ->. auto.
  - intros H. apply not_false_iff_true. unfold url_ok.
    apply PyStrFacts.startswith_spec.
    destruct H as [H|H]; apply PyStrFacts.startswith_spec in H as [t Ht]; rewrite Ht.
    + exists ("://" +:+ t). reflexivity.
    + exists ("s://" +:+ t). reflexivity.
Qed.

Lemma accepted_url_starts_with_http_witness :
  let f := bare_form "POST" " https://host/items " in
  (accepted Json.loads refused f ↔ ∃ t : string, PyStr.strip (url f) = "http" +:+ t) ∧
  (PyStr.startswith (PyStr.strip (url f)) "http" = false → ¬ accepted Json.loads refused f) ∧
  (PyStr.startswith (PyStr.strip (url f)) "http://" = true
   ∨ PyStr.startswith (PyStr.strip (url f)) "https://" = true →
   accepted Json.loads refused f).
Proof.
  apply (accepted_url_starts_with_http Json.loads refused (bare_form "POST" " https://host/items ")).
  reflexivity.
Defined.

(** C9: for method [GET] the body tab yields no body mode and an empty
    body text, so the request has [data=None] and [json=None], and its
    headers are the merged headers as they are: no [Content-Type] is set
    by default, and the request has one only when a header row gives it. *)
Theorem get_request_has_no_body (json_loads : string → option json) (f : form) :
  method f = "GET" →
  let req := build_request json_loads f in
  body_tab f = (None, "") ∧
  r_data req = None ∧
  r_json req = JNull ∧
  r_headers req = PyDict.or_none (merged_headers f) ∧
  from_option (λ h, h !! "Content-Type") None (r_headers req)
  = kv_rows_to_dict (headers_rows f) !! "Content-Type".
Proof.
  intros Hm req.
  assert (Ht : body_tab f = (None, "")).
  { unfold body_tab. rewrite Hm. reflexivity. }
  subst req. rewrite build_request_eq. unfold body_mode, body_raw. rewrite Ht. simpl.
  repeat split. rewrite or_none_lookup. apply merged_headers_content_type.
Qed.

(** The scenario of the specification: a [GET] without rows. *)
Lemma get_request_has_no_body_witness :
  let f := bare_form "GET" "https://api.example.com/ping" in
  let req := build_request Json.loads f in
  body_tab f = (None, "") ∧
  r_data req = None ∧
  r_json req = JNull ∧
  r_headers req = PyDict.or_none (merged_headers f) ∧
  from_option (λ h, h !! "Content-Type") None (r_headers req)
  = kv_rows_to_dict (headers_rows f) !! "Content-Type".
Proof.
  apply (get_request_has_no_body Json.loads (bare_form "GET" "https://api.example.com/ping")).
  reflexivity.
Defined.

Example get_ping_request :
  build_request Json.loads (bare_form "GET" "https://api.example.com/ping")
  = {| r_method := "GET"; r_url := "https://api.example.com/ping";
       r_params := None; r_headers := None; r_data := None; r_json := JNull;
       r_auth := None; r_timeout := 20; r_verify := true |}.
Proof. vm_compute. reflexivity. Qed.

(** A [GET] keeps no body even when the body widgets hold text from an
    earlier run with another method. *)
Example get_ignores_body_widgets :
  let f := {| selected_name := "—"; new_name := ""; save_clicked := false;
              method := "GET"; url := "http://host"; timeout_s := 20; verify_ssl := true;
              params_rows := [mk_row "q" "1"]; headers_rows := [mk_row "Accept" "application/json"];
              mode_selection := "json"; json_body_area := ("{" +:+ quoted "example" +:+ ": true}");
              raw_body_area := "x";
              auth_type := "Bearer"; bearer_input := "tok"; username_input := "";
              password_input := ""; submitted := true |} in
  build_request Json.loads f
  = {| r_method := "GET"; r_url := "http://host";
       r_params := Some {[ "q" := "1" ]};
       r_headers := Some (<["Authorization" := "Bearer tok"]> {[ "Accept" := "application/json" ]});
       r_data := None; r_json := JNull; r_auth := None;
       r_timeout := 20; r_verify := true |}.
Proof. vm_compute. reflexivity. Qed.

(** The other scenario of the specification: a [POST] with a JSON body
    and a bearer token. *)
Example post_json_bearer :
  let f := {| selected_name := "—"; new_name := ""; save_clicked := false;
              method := "POST"; url := "https://host"; timeout_s := 20; verify_ssl := true;
              params_rows := []; headers_rows := [];
              mode_selection := "json"; json_body_area := ("{" +:+ quoted "x" +:+ ":1}"); raw_body_area := "";
              auth_type := "Bearer"; bearer_input := "tok"; username_input := "";
              password_input := ""; submitted := true |} in
  build_request Json.loads f
  = {| r_method := "POST"; r_url := "https://host";
       r_params := None;
       r_headers := Some (<["Content-Type" := "application/json"]>
                            {[ "Authorization" := "Bearer tok" ]});
       r_data := None; r_json := JObj [("x", JNum "1")]; r_auth := None;
       r_timeout := 20; r_verify := true |}.
Proof. vm_compute. reflexivity. Qed.

(** ** PresetStore *)

Section WithoutName.

Variable n : string.

Lemma without_name_cons (p : RequestPreset.t) (ps : list RequestPreset.t) :
  without_name n (p :: ps) =
  if String.eqb (RequestPreset.name p) n then without_name n ps else p :: without_name n ps.
Proof. unfold without_name. simpl. destruct (String.eqb _ _); reflexivity. Qed.

Lemma without_name_app (ps qs : list RequestPreset.t) :
  without_name n (ps ++ qs)%list = (without_name n ps ++ without_name n qs)%list.
Proof. apply List.filter_app. Qed.

Lemma without_name_names (ps : list RequestPreset.t) (m : string) :
  m ∈ preset_names (without_name n ps) ↔ m ∈ preset_names ps ∧ m ≠ n.
Proof.
  induction ps as [|p ps IH]; [simpl; split; [inversion 1 | intros [H _]; inversion H]|].
  rewrite without_name_cons. unfold preset_names in *. simpl.
  destruct (String.eqb_spec (RequestPreset.name p) n) as [He|Hne].
  - rewrite IH, elem_of_cons. split; [tauto|]. intros [[->|H] Hm]; [contradiction|tauto].
  - simpl. rewrite !elem_of_cons, IH. split; [|tauto].
    intros [->|[H Hm]]; tauto.
Qed.

Lemma without_name_absent (ps : list RequestPreset.t) :
  n ∉ preset_names (without_name n ps).
Proof. rewrite without_name_names. tauto. Qed.

Lemma without_name_NoDup (ps : list RequestPreset.t) :
  NoDup (preset_names ps) → NoDup (preset_names (without_name n ps)).
Proof.
  induction ps as [|p ps IH]; [intros _; constructor|].
  rewrite without_name_cons. unfold preset_names in *. simpl.
  rewrite NoDup_cons. intros [Hp Hps].
  destruct (String.eqb (RequestPreset.name p) n); [auto|].
  simpl. apply NoDup_cons. split; [|auto].
  intros H. apply without_name_names in H. tauto.
Qed.

Lemma without_name_id (ps : list RequestPreset.t) :
  n ∉ preset_names ps → without_name n ps = ps.
Proof.
  induction ps as [|p ps IH]; [reflexivity|].
  rewrite without_name_cons. unfold preset_names in *. simpl.
  rewrite not_elem_of_cons. intros [Hp Hps].
  destruct (String.eqb_spec (RequestPreset.name p) n); [congruence|].
  rewrite IH by exact Hps. reflexivity.
Qed.

Lemma without_name_idem (ps : list RequestPreset.t) :
  without_name n (without_name n ps) = without_name n ps.
Proof. apply without_name_id, without_name_absent. Qed.

(** In a store with unique names, one preset goes when [n] is there. *)
Lemma without_name_length (ps : list RequestPreset.t) :
  NoDup (preset_names ps) → n ∈ preset_names ps →
  S (length (without_name n ps)) = length ps.
Proof.
  induction ps as [|p ps IH]; [intros _ H; inversion H|].
  rewrite without_name_cons. unfold preset_names in *. simpl.
  rewrite NoDup_cons, elem_of_cons. intros [Hp Hps] Hin.
  destruct (String.eqb_spec (RequestPreset.name p) n) as [He|Hne].
  - rewrite He in Hp. rewrite without_name_id by exact Hp. reflexivity.
  - simpl. f_equal. apply IH; [exact Hps|]. destruct Hin as [He|H]; [congruence|exact H].
Qed.

Lemma with_name_without_name (ps : list RequestPreset.t) :
  with_name n (without_name n ps) = [].
Proof.
  induction ps as [|p ps IH]; [reflexivity|].
  rewrite without_name_cons.
  destruct (String.eqb (RequestPreset.name p) n) eqn:He; [exact IH|].
  unfold with_name in *. simpl. rewrite He. exact IH.
Qed.

End WithoutName.

Section Presets.

Variable json_loads : string → option json.
Variable validation_error : RequestPreset.t → option string.
Variable http : request → string + response.

Lemma presets_after_eq (f : form) (presets : list RequestPreset.t) :
  presets_after json_loads validation_error http f presets
  = (save_block validation_error f (save_block validation_error f presets).1).1.
Proof.
  unfold presets_after, script.
  destruct (save_block validation_error f presets) as [presets1 ev2]. simpl.
  destruct (save_block validation_error f presets1) as [presets2 ev4]. reflexivity.
Qed.

Lemma save_block_saved (f : form) (presets : list RequestPreset.t) :
  save_clicked f = true → validation_error (preset_of_form f) = None →
  (save_block validation_error f presets).1
  = (without_name (RequestPreset.name (preset_of_form f)) presets ++ [preset_of_form f])%list.
Proof. unfold save_block. intros -> ->. reflexivity. Qed.

Lemma save_block_aborted (f : form) (presets : list RequestPreset.t) (e : string) :
  validation_error (preset_of_form f) = Some e →
  (save_block validation_error f presets).1 = presets.
Proof. unfold save_block. intros ->. destruct (save_clicked f); reflexivity. Qed.

Lemma save_block_not_clicked (f : form) (presets : list RequestPreset.t) :
  save_clicked f = false → save_block validation_error f presets = (presets, []).
Proof. unfold save_block. intros ->. reflexivity. Qed.

(** The save block stands twice in the script; the second pass removes
    and appends the preset that the first pass appended. *)
Lemma presets_after_saved (f : form) (presets : list RequestPreset.t) :
  save_clicked f = true → validation_error (preset_of_form f) = None →
  presets_after json_loads validation_error http f presets
  = (without_name (RequestPreset.name (preset_of_form f)) presets ++ [preset_of_form f])%list.
Proof.
  intros Hc Hv. rewrite presets_after_eq, !save_block_saved by assumption.
  rewrite without_name_app, without_name_idem, without_name_cons, String.eqb_refl.
  unfold without_name at 2. simpl. rewrite app_nil_r. reflexivity.
Qed.

(** Unique names are an invariant of the script. *)
Lemma presets_after_NoDup (f : form) (presets : list RequestPreset.t) :
  NoDup (preset_names presets) → NoDup (preset_names (presets_after json_loads validation_error http f presets)).
Proof.
  intros Hnd. destruct (save_clicked f) eqn:Hc.
  - destruct (validation_error (preset_of_form f)) as [e|] eqn:Hv.
    + rewrite presets_after_eq, !(save_block_aborted _ _ e) by exact Hv. exact Hnd.
    + rewrite presets_after_saved by assumption.
      unfold preset_names. rewrite fmap_app. apply NoDup_app. split; [|split].
      * apply without_name_NoDup, Hnd.
      * intros m Hm Hin. apply list_elem_of_singleton in Hin. subst m.
        exact (without_name_absent _ _ Hm).
      * apply NoDup_singleton.
  - rewrite presets_after_eq, !save_block_not_clicked by exact Hc. exact Hnd.
Qed.

Lemma reachable_NoDup (presets : list RequestPreset.t) :
  reachable json_loads validation_error http presets → NoDup (preset_names presets).
Proof.
  induction 1 as [|f presets _ IH]; [constructor | apply presets_after_NoDup, IH].
Qed.

End Presets.

(** The placeholder name stands in for a blank name. *)
Lemma preset_name_of_form (f : form) :
  RequestPreset.name (preset_of_form f)
  = if PyStr.truthy (PyStr.strip (new_name f)) then PyStr.strip (new_name f) else "Preset".
Proof. unfold preset_of_form. simpl. destruct (PyStr.strip (new_name f)); reflexivity. Qed.

(** C7: when "Save preset" is clicked and the model validates, the store
    after the run is the old store without the presets of that name,
    followed by the new preset.  So exactly one preset has that name and
    it is the new one, it is the last of the store, unique names stay
    unique, and a store with unique names that had the name keeps its
    length.  A blank name is saved as ["Preset"]. *)
Theorem save_preset_upsert
    (json_loads : string → option json) (validation_error : RequestPreset.t → option string)
    (http : request → string + response) (f : form) (presets : list RequestPreset.t) :
  save_clicked f = true →
  validation_error (preset_of_form f) = None →
  let preset := preset_of_form f in
  let presets' := presets_after json_loads validation_error http f presets in
  presets' = (without_name (RequestPreset.name preset) presets ++ [preset])%list ∧
  with_name (RequestPreset.name preset) presets' = [preset] ∧
  last presets' = Some preset ∧
  (NoDup (preset_names presets) → NoDup (preset_names presets')) ∧
  (NoDup (preset_names presets) → RequestPreset.name preset ∈ preset_names presets →
   length presets' = length presets) ∧
  (RequestPreset.name preset ∉ preset_names presets → presets' = (presets ++ [preset])%list) ∧
  (PyStr.strip (new_name f) = "" → RequestPreset.name preset = "Preset") ∧
  (PyStr.strip (new_name f) ≠ "" → RequestPreset.name preset = PyStr.strip (new_name f)).
Proof.
  intros Hc Hv preset presets'.
  assert (He : presets' = (without_name (RequestPreset.name preset) presets ++ [preset])%list)
    by (apply presets_after_saved; assumption).
  split; [exact He|]. rewrite He.
  split; [|split; [|split; [|split; [|split; [|split]]]]].
  - unfold with_name. rewrite List.filter_app.
    fold (with_name (RequestPreset.name preset) (without_name (RequestPreset.name preset) presets)).
    rewrite with_name_without_name. simpl. rewrite String.eqb_refl. reflexivity.
  - apply last_snoc.
  - intros Hnd. rewrite <- He. apply presets_after_NoDup, Hnd.
  - intros Hnd Hin. rewrite length_app. simpl.
    pose proof (without_name_length (RequestPreset.name preset) presets Hnd Hin) as Hl.
    rewrite <- Hl. rewrite Nat.add_1_r. reflexivity.
  - intros Hnin. rewrite without_name_id by exact Hnin. reflexivity.
  - intros Hb. subst preset. rewrite preset_name_of_form, Hb. reflexivity.
  - intros Hb. subst preset. rewrite preset_name_of_form.
    apply PyStrFacts.truthy_true in Hb. rewrite Hb. reflexivity.
Qed.

Lemma save_preset_upsert_witness :
  let f := save_form " X " "second" in
  let preset := preset_of_form f in
  let presets' := presets_after Json.loads accepts refused f two_presets in
  presets' = (without_name (RequestPreset.name preset) two_presets ++ [preset])%list ∧
  with_name (RequestPreset.name preset) presets' = [preset] ∧
  last presets' = Some preset ∧
  (NoDup (preset_names two_presets) → NoDup (preset_names presets')) ∧
  (NoDup (preset_names two_presets) → RequestPreset.name preset ∈ preset_names two_presets →
   length presets' = length two_presets) ∧
  (RequestPreset.name preset ∉ preset_names two_presets
   → presets' = (two_presets ++ [preset])%list) ∧
  (PyStr.strip (new_name f) = "" → RequestPreset.name preset = "Preset") ∧
  (PyStr.strip (new_name f) ≠ "" → RequestPreset.name preset = PyStr.strip (new_name f)).
Proof.
  apply (save_preset_upsert Json.loads accepts refused (save_form " X " "second") two_presets).
  - reflexivity.
  - reflexivity.
Defined.

(** The example of the specification: ["X"] saved again with another body
    is there once, with the second body, at the end; the length stays. *)
Example save_twice :
  let presets' := presets_after Json.loads accepts refused (save_form "X" "second") two_presets in
  preset_names two_presets = ["X"; "Y"] ∧
  preset_names presets' = ["Y"; "X"] ∧
  RequestPreset.body_raw <$> presets' = ["y"; "second"] ∧
  length presets' = length two_presets.
Proof. vm_compute. repeat split. Qed.

Example save_blank_name :
  preset_names (presets_after Json.loads accepts refused (save_form "   " "b") two_presets)
  = ["X"; "Y"; "Preset"].
Proof. vm_compute. reflexivity. Qed.

(** C8: when the constructor of the model raises a validation error, the
    save block leaves the store as it was, the error is what the block
    shows when the button was clicked, and the store after the whole run
    is the store before it. *)
Theorem save_preset_validation_error
    (json_loads : string → option json) (validation_error : RequestPreset.t → option string)
    (http : request → string + response) (f : form) (presets : list RequestPreset.t)
    (e : string) :
  validation_error (preset_of_form f) = Some e →
  (save_block validation_error f presets).1 = presets ∧
  (save_clicked f = true → (save_block validation_error f presets).2 = [StError e]) ∧
  presets_after json_loads validation_error http f presets = presets.
Proof.
  intros Hv. split; [|split].
  - apply (save_block_aborted validation_error f presets e Hv).
  - unfold save_block. intros ->. rewrite Hv. reflexivity.
  - rewrite presets_after_eq, !(save_block_aborted validation_error _ _ e) by exact Hv.
    reflexivity.
Qed.

Lemma save_preset_validation_error_witness :
  let f := save_form "X" "second" in
  (save_block refuses f two_presets).1 = two_presets ∧
  (save_clicked f = true
   → (save_block refuses f two_presets).2 = [StError "1 validation error for RequestPreset"]) ∧
  presets_after Json.loads refuses refused f two_presets = two_presets.
Proof.
  apply (save_preset_validation_error Json.loads refuses refused (save_form "X" "second")
           two_presets "1 validation error for RequestPreset").
  reflexivity.
Defined.

(** The sample store is one that a session reaches, so its names are
    unique. *)
Example two_presets_reachable :
  reachable Json.loads accepts refused two_presets ∧ NoDup (preset_names two_presets).
Proof.
  assert (H : reachable Json.loads accepts refused two_presets)
    by (unfold two_presets; repeat constructor).
  split; [exact H | exact (reachable_NoDup _ _ _ _ H)].
Qed.

(** * Further properties *)

(** ** [kv_rows_to_dict] *)

Lemma kv_step_union (a b : gmap string string) (r : row) :
  kv_step (a ∪ b) r = kv_step a r ∪ b.
Proof. unfold kv_step. destruct (PyStr.truthy (row_key r)); [apply insert_union_l | reflexivity]. Qed.

(** X1: collecting the concatenation of two lists of rows gives the
    mapping of the second list laid over the mapping of the first: the
    rows of the second list win on the keys that both have. *)
Theorem kv_rows_to_dict_app (rows1 rows2 : list row) :
  kv_rows_to_dict (rows1 ++ rows2)%list = kv_rows_to_dict rows2 ∪ kv_rows_to_dict rows1.
Proof.
  induction rows2 as [|r rows2 IH] using rev_ind.
  - rewrite app_nil_r. unfold kv_rows_to_dict at 2. simpl. rewrite (left_id_L ∅ (∪)). reflexivity.
  - rewrite app_assoc, !kv_rows_to_dict_snoc, IH. apply kv_step_union.
Qed.

Example kv_rows_to_dict_app_example :
  kv_rows_to_dict ([mk_row "a" "1"; mk_row "b" "2"] ++ [mk_row "a" "3"])%list
  = <["a" := "3"]> {[ "b" := "2" ]}.
Proof. vm_compute. reflexivity. Qed.

(** X2: the mapping never has more entries than there are rows. *)
Theorem kv_rows_to_dict_size (rows : list row) :
  (size (kv_rows_to_dict rows) ≤ length rows)%nat.
Proof.
  induction rows as [|r rows IH] using rev_ind; [reflexivity|].
  rewrite kv_rows_to_dict_snoc, length_app. simpl. unfold kv_step.
  destruct (PyStr.truthy (row_key r)).
  - rewrite map_size_insert. destruct (kv_rows_to_dict rows !! row_key r); simpl; lia.
  - lia.
Qed.

Lemma kv_rows_to_dict_empty_iff (rows : list row) :
  kv_rows_to_dict rows = ∅ ↔ Forall (λ r, row_key r = "") rows.
Proof.
  induction rows as [|r rows IH] using rev_ind; [split; [constructor | reflexivity]|].
  rewrite kv_rows_to_dict_snoc, Forall_app, Forall_singleton. unfold kv_step.
  destruct (PyStr.truthy (row_key r)) eqn:Ht.
  - apply PyStrFacts.truthy_true in Ht. split.
    + intros H. exfalso. exact (insert_non_empty _ _ _ H).
    + intros [_ H]. contradiction.
  - apply PyStrFacts.truthy_false in Ht. rewrite IH. tauto.
Qed.

(** X3: the mapping is empty exactly when every row has a blank key
    (missing, [None], or white space only); and exactly then the request
    is sent with [params=None] rather than with an empty dictionary. *)
Theorem params_none_iff_blank_keys (json_loads : string → option json) (f : form) :
  (kv_rows_to_dict (params_rows f) = ∅ ↔ Forall (λ r, row_key r = "") (params_rows f)) ∧
  (r_params (build_request json_loads f) = None ↔ Forall (λ r, row_key r = "") (params_rows f)).
Proof.
  split; [apply kv_rows_to_dict_empty_iff|].
  rewrite <- kv_rows_to_dict_empty_iff, build_request_eq. simpl.
  unfold PyDict.or_none. case_decide; split; congruence.
Qed.

Lemma or_str_some_empty (s : string) : PyStr.or_str (Some s) "" = s.
Proof. destruct s; reflexivity. Qed.

Lemma row_get_mk_row (k v : string) :
  row_get (mk_row k v) "key" = Some k ∧ row_get (mk_row k v) "value" = Some v.
Proof.
  unfold row_get, mk_row. rewrite lookup_insert_eq.
  rewrite lookup_insert_ne by discriminate. rewrite lookup_insert_eq. split; reflexivity.
Qed.

Lemma trimmed_row_key (r : row) : row_key (trimmed_row r) = row_key r.
Proof.
  unfold trimmed_row. unfold row_key at 1.
  rewrite (proj1 (row_get_mk_row _ _)), or_str_some_empty.
  apply PyStrFacts.strip_idem.
Qed.

Lemma trimmed_row_value (r : row) : row_value (trimmed_row r) = row_value r.
Proof.
  unfold trimmed_row. unfold row_value at 1.
  rewrite (proj2 (row_get_mk_row _ _)), or_str_some_empty.
  apply PyStrFacts.strip_idem.
Qed.

(** X4: the mapping depends on a row only through its trimmed key and
    its trimmed value: replacing every row by the row of its trimmed key
    and value (dropping other entries, white space and [None]) gives the
    same mapping. *)
Theorem kv_rows_to_dict_trimmed_rows (rows : list row) :
  kv_rows_to_dict (trimmed_row <$> rows) = kv_rows_to_dict rows.
Proof.
  induction rows as [|r rows IH] using rev_ind; [reflexivity|].
  rewrite fmap_app. simpl. rewrite !kv_rows_to_dict_snoc, IH.
  unfold kv_step. rewrite trimmed_row_key, trimmed_row_value. reflexivity.
Qed.

(** ** [build_auth] *)

(** X5: [build_auth] never gives both a header and credentials; it gives
    a header only for auth type [Bearer] with a non-empty token, and the
    header is then [Authorization]; it gives credentials only for auth
    type [Basic] with a user name.  Any other auth type, whatever its
    case or spelling, gives neither. *)
Theorem build_auth_exclusive (auth_type : string) (b u p : option string) :
  ((build_auth auth_type b u p).1 = ∅ ∨ (build_auth auth_type b u p).2 = None) ∧
  ((build_auth auth_type b u p).1 ≠ ∅ →
   auth_type = "Bearer" ∧
   ∃ tok, b = Some tok ∧ tok ≠ "" ∧
          (build_auth auth_type b u p).1 = {[ "Authorization" := "Bearer " +:+ tok ]}) ∧
  ((build_auth auth_type b u p).2 ≠ None →
   auth_type = "Basic" ∧
   ∃ user, u = Some user ∧ (build_auth auth_type b u p).2 = Some (user, default "" p)) ∧
  (auth_type ≠ "Bearer" → auth_type ≠ "Basic" → build_auth auth_type b u p = (∅, None)).
Proof.
  assert (Hnone : ∀ h a, (h, a) = (∅ : gmap string string, None : option (string * string)) →
            (h = ∅ ∨ a = None) ∧ (h ≠ ∅ → auth_type = "Bearer" ∧
               ∃ tok, b = Some tok ∧ tok ≠ "" ∧ h = {[ "Authorization" := "Bearer " +:+ tok ]}) ∧
            (a ≠ None → auth_type = "Basic" ∧ ∃ user, u = Some user ∧ a = Some (user, default "" p))).
  { intros h a [= -> ->]. split; [left; reflexivity|].
    split; intros H; exfalso; apply H; reflexivity. }
  unfold build_auth.
  destruct (String.eqb_spec auth_type "Bearer") as [Hb|Hb].
  - subst auth_type. simpl. destruct b as [[|c tok]|]; simpl.
    + split; [|split; [|split]]; try (apply (Hnone ∅ None eq_refl)). intros H; contradiction.
    + split; [right; reflexivity|]. split; [|split].
      * intros _. split; [reflexivity|]. exists (String c tok). repeat split. discriminate.
      * intros H; contradiction.
      * intros H; contradiction.
    + split; [|split; [|split]]; try (apply (Hnone ∅ None eq_refl)). intros H; contradiction.
  - assert (Hrest :
      match String.eqb auth_type "Basic", u with
      | true, Some u0 => (∅ : gmap string string, Some (u0, PyStr.or_str p ""))
      | _, _ => (∅, None)
      end
      = (if String.eqb auth_type "Basic" then
           match u with Some u0 => (∅, Some (u0, default "" p)) | None => (∅, None) end
         else (∅, None))).
    { rewrite or_str_default. destruct (String.eqb auth_type "Basic"), u; reflexivity. }
    assert (Hgoal : ∀ r : gmap string string * option (string * string),
      r = (if String.eqb auth_type "Basic" then
             match u with Some u0 => (∅, Some (u0, default "" p)) | None => (∅, None) end
           else (∅, None)) →
      (r.1 = ∅ ∨ r.2 = None) ∧
      (r.1 ≠ ∅ → auth_type = "Bearer" ∧
         ∃ tok, b = Some tok ∧ tok ≠ "" ∧ r.1 = {[ "Authorization" := "Bearer " +:+ tok ]}) ∧
      (r.2 ≠ None → auth_type = "Basic" ∧ ∃ user, u = Some user ∧ r.2 = Some (user, default "" p)) ∧
      (auth_type ≠ "Bearer" → auth_type ≠ "Basic" → r = (∅, None))).
    { intros r ->. destruct (String.eqb_spec auth_type "Basic") as [Hc|Hc].
      - destruct u as [user|]; simpl.
        + split; [left; reflexivity|]. split; [intros H; contradiction|]. split.
          * intros _. split; [exact Hc|]. exists user. split; reflexivity.
          * intros _ H; contradiction.
        + split; [|split; [|split]]; try (apply (Hnone ∅ None eq_refl)). reflexivity.
      - split; [|split; [|split]]; try (apply (Hnone ∅ None eq_refl)). reflexivity. }
    destruct b as [[|c tok]|]; simpl; apply Hgoal; exact Hrest.
Qed.

Example build_auth_unknown_type :
  build_auth "bearer" (Some "tok") (Some "alice") (Some "pw") = (∅, None).
Proof. reflexivity. Qed.

(** ** The body and the headers of the request *)

Section Bodies.

Variable json_loads : string → option json.

Lemma body_tab_cases (f : form) :
  (body_mode f = None ∧ body_raw f = "") ∨
  (method f ≠ "GET" ∧ mode_selection f = "json" ∧
   body_mode f = Some "json" ∧ body_raw f = json_body_area f) ∨
  (method f ≠ "GET" ∧ mode_selection f = "raw" ∧
   body_mode f = Some "raw" ∧ body_raw f = raw_body_area f) ∨
  (method f ≠ "GET" ∧ mode_selection f ≠ "none" ∧ mode_selection f ≠ "json" ∧
   mode_selection f ≠ "raw" ∧ body_mode f = Some (mode_selection f) ∧ body_raw f = "").
Proof.
  unfold body_mode, body_raw, body_tab.
  destruct (String.eqb_spec (method f) "GET") as [Hg|Hg]; [left; split; reflexivity|].
  destruct (String.eqb_spec (mode_selection f) "none") as [Hn|Hn]; simpl;
    [left; split; reflexivity|].
  destruct (String.eqb_spec (mode_selection f) "json") as [Hj|Hj]; simpl.
  - right; left. rewrite Hj. auto.
  - destruct (String.eqb_spec (mode_selection f) "raw") as [Hr|Hr]; simpl.
    + right; right; left. rewrite Hr. auto.
    + right; right; right. auto 10.
Qed.

End Bodies.

Section RequestFacts.

Variable json_loads : string → option json.

Lemma mode_is_body_tab (f : form) :
  method f ≠ "GET" →
  (mode_selection f = "json" →
   mode_is (body_mode f) "json" = true ∧ mode_is (body_mode f) "raw" = false ∧
   body_raw f = json_body_area f) ∧
  (mode_selection f = "raw" →
   mode_is (body_mode f) "json" = false ∧ mode_is (body_mode f) "raw" = true ∧
   body_raw f = raw_body_area f).
Proof.
  intros Hg. unfold body_mode, body_raw, body_tab.
  destruct (String.eqb_spec (method f) "GET"); [contradiction|].
  split; intros ->; simpl; auto.
Qed.

(** Apart from [Content-Type], the request has the merged headers. *)
Lemma request_header_lookup (f : form) (k : string) :
  k ≠ "Content-Type" →
  from_option (λ h, h !! k) None (r_headers (build_request json_loads f))
  = merged_headers f !! k.
Proof.
  intros Hk. rewrite build_request_eq. simpl. rewrite or_none_lookup.
  destruct (_ || _); [|reflexivity]. apply setdefault_lookup_ne. congruence.
Qed.

Lemma request_auth (f : form) :
  r_auth (build_request json_loads f)
  = (build_auth (auth_type f) (bearer_token f) (basic_user f) (basic_pass f)).2.
Proof. rewrite build_request_eq. reflexivity. Qed.

End RequestFacts.

(** X6: with a method other than [GET] and body mode [raw], the text of
    the raw body area is sent verbatim as [data] (also when it is empty or
    is JSON), no JSON payload is sent, and [Content-Type] is the user's
    header when a row gives one and [application/json] otherwise. *)
Theorem raw_body_is_sent_verbatim (json_loads : string → option json) (f : form) :
  method f ≠ "GET" →
  mode_selection f = "raw" →
  let req := build_request json_loads f in
  r_data req = Some (raw_body_area f) ∧
  r_json req = JNull ∧
  r_headers req = Some (PyDict.setdefault "Content-Type" "application/json" (merged_headers f)) ∧
  from_option (λ h, h !! "Content-Type") None (r_headers req)
  = Some (default "application/json" (kv_rows_to_dict (headers_rows f) !! "Content-Type")).
Proof.
  intros Hg Hm req. subst req.
  destruct (proj2 (mode_is_body_tab f Hg) Hm) as (Hj & Hr & Hb).
  rewrite build_request_eq. simpl. rewrite Hj, Hr, Hb. simpl.
  rewrite or_none_setdefault. simpl.
  rewrite setdefault_lookup, merged_headers_content_type. auto.
Qed.

Lemma raw_body_is_sent_verbatim_witness :
  let f := post_form [mk_row "content-type" "text/csv"] "raw" "" "a,b" "None" "" "" "" in
  let req := build_request Json.loads f in
  r_data req = Some (raw_body_area f) ∧
  r_json req = JNull ∧
  r_headers req = Some (PyDict.setdefault "Content-Type" "application/json" (merged_headers f)) ∧
  from_option (λ h, h !! "Content-Type") None (r_headers req)
  = Some (default "application/json" (kv_rows_to_dict (headers_rows f) !! "Content-Type")).
Proof.
  apply (raw_body_is_sent_verbatim Json.loads
           (post_form [mk_row "content-type" "text/csv"] "raw" "" "a,b" "None" "" "" ""));
    [discriminate | reflexivity].
Defined.

(** The default is set under the exact key: a header row in another case
    does not stop it, and the request then has both. *)
Example raw_body_two_content_types :
  r_headers (build_request Json.loads
               (post_form [mk_row "content-type" "text/csv"] "raw" "" "a,b" "None" "" "" ""))
  = Some (<["Content-Type" := "application/json"]> {[ "content-type" := "text/csv" ]}).
Proof. vm_compute. reflexivity. Qed.

(** X7: no request has both a raw body and a JSON payload.  A raw body
    is there only for a method other than [GET] with body mode [raw], and
    it is the text of the raw body area; a JSON payload is there only for
    a method other than [GET] with body mode [json], and it is what
    [json.loads] made of the text of the JSON body area. *)
Theorem body_is_exclusive (json_loads : string → option json) (f : form) :
  (r_data (build_request json_loads f) = None ∨ r_json (build_request json_loads f) = JNull) ∧
  (∀ d, r_data (build_request json_loads f) = Some d →
     method f ≠ "GET" ∧ mode_selection f = "raw" ∧ d = raw_body_area f) ∧
  (r_json (build_request json_loads f) ≠ JNull →
     method f ≠ "GET" ∧ mode_selection f = "json" ∧
     json_loads (json_body_area f) = Some (r_json (build_request json_loads f))).
Proof.
  rewrite build_request_eq. simpl.
  destruct (body_tab_cases f) as [[Hm Hb]|[(Hg & Hs & Hm & Hb)|[(Hg & Hs & Hm & Hb)|(Hg & Hn & Hj & Hr & Hm & Hb)]]];
    rewrite Hm, Hb; simpl.
  - split; [left; reflexivity|]. split; [discriminate|]. intros H; contradiction.
  - destruct (PyStr.truthy (PyStr.strip (json_body_area f))); simpl.
    + split; [left; reflexivity|]. split; [discriminate|].
      intros H. repeat split; try assumption.
      unfold try_parse_json in *. destruct (json_loads (json_body_area f)); [reflexivity|contradiction].
    + split; [left; reflexivity|]. split; [discriminate|]. intros H; contradiction.
  - split; [right; reflexivity|]. split; [|intros H; contradiction].
    intros d [= <-]. auto.
  - apply String.eqb_neq in Hj, Hr. rewrite Hj, Hr. simpl.
    split; [left; reflexivity|]. split; [discriminate|]. intros H; contradiction.
Qed.

(** X8: with body mode [json] and a JSON body area that is empty or
    white space only, nothing is parsed and nothing is sent: no payload,
    no raw body, and no [Content-Type] default, so the headers are the
    merged headers. *)
Theorem blank_json_body_sends_nothing (json_loads : string → option json) (f : form) :
  method f ≠ "GET" →
  mode_selection f = "json" →
  PyStr.strip (json_body_area f) = "" →
  let req := build_request json_loads f in
  r_data req = None ∧ r_json req = JNull ∧ r_headers req = PyDict.or_none (merged_headers f).
Proof.
  intros Hg Hm Hb req. subst req.
  destruct (proj1 (mode_is_body_tab f Hg) Hm) as (Hj & Hr & He).
  rewrite build_request_eq. simpl. rewrite Hj, Hr, He, Hb. simpl. auto.
Qed.

Lemma blank_json_body_sends_nothing_witness :
  let f := post_form [] "json" "  " "" "None" "" "" "" in
  let req := build_request Json.loads f in
  r_data req = None ∧ r_json req = JNull ∧ r_headers req = PyDict.or_none (merged_headers f).
Proof.
  apply (blank_json_body_sends_nothing Json.loads (post_form [] "json" "  " "" "None" "" "" ""));
    [discriminate | reflexivity | reflexivity].
Defined.

(** X9: with body mode [json] and a non-blank text that parses to [v],
    the request carries [v] as its JSON payload and no raw body, and
    [Content-Type] is the user's header when a row gives one and
    [application/json] otherwise. *)
Theorem json_body_is_sent_parsed (json_loads : string → option json) (f : form) (v : json) :
  method f ≠ "GET" →
  mode_selection f = "json" →
  PyStr.strip (json_body_area f) ≠ "" →
  json_loads (json_body_area f) = Some v →
  let req := build_request json_loads f in
  r_json req = v ∧
  r_data req = None ∧
  from_option (λ h, h !! "Content-Type") None (r_headers req)
  = Some (default "application/json" (kv_rows_to_dict (headers_rows f) !! "Content-Type")).
Proof.
  intros Hg Hm Hb Hv req. subst req.
  destruct (proj1 (mode_is_body_tab f Hg) Hm) as (Hj & Hr & He).
  apply PyStrFacts.truthy_true in Hb.
  rewrite build_request_eq. simpl. rewrite Hj, Hr, He, Hb. simpl.
  unfold try_parse_json. rewrite Hv, or_none_setdefault. simpl.
  rewrite setdefault_lookup, merged_headers_content_type. auto.
Qed.

Lemma json_body_is_sent_parsed_witness :
  let f := post_form [mk_row "Content-Type" "application/merge-patch+json"]
             "json" " [1, true] " "" "None" "" "" "" in
  let req := build_request Json.loads f in
  r_json req = JArr [JNum "1"; JBool true] ∧
  r_data req = None ∧
  from_option (λ h, h !! "Content-Type") None (r_headers req)
  = Some (default "application/json" (kv_rows_to_dict (headers_rows f) !! "Content-Type")).
Proof.
  apply (json_body_is_sent_parsed Json.loads
           (post_form [mk_row "Content-Type" "application/merge-patch+json"]
              "json" " [1, true] " "" "None" "" "" "")
           (JArr [JNum "1"; JBool true]));
    [discriminate | reflexivity | vm_compute; discriminate | reflexivity].
Defined.

(** ** Authentication in the request *)

(** X10: with auth type [Bearer] and a non-empty token, the request
    carries [Authorization: Bearer <token>] whatever the header rows say
    (the auth header wins over a user's [Authorization] row), and no
    transport credentials. *)
Theorem bearer_header_wins (json_loads : string → option json) (f : form) :
  auth_type f = "Bearer" →
  bearer_input f ≠ "" →
  from_option (λ h, h !! "Authorization") None (r_headers (build_request json_loads f))
  = Some ("Bearer " +:+ bearer_input f) ∧
  r_auth (build_request json_loads f) = None.
Proof.
  intros Ha Hb.
  rewrite request_header_lookup by discriminate. rewrite request_auth.
  unfold merged_headers, PyDict.update, bearer_token, basic_user, basic_pass, auth_tab.
  rewrite Ha. simpl. unfold build_auth. simpl.
  destruct (bearer_input f) as [|c tok]; [contradiction|]. simpl. split; [|reflexivity].
  apply lookup_union_Some_l, lookup_singleton_eq.
Qed.

Lemma bearer_header_wins_witness :
  let f := post_form [mk_row "Authorization" "Basic dXNlcjpwdw=="] "none" "" "" "Bearer" "tok" "" "" in
  from_option (λ h, h !! "Authorization") None (r_headers (build_request Json.loads f))
  = Some ("Bearer " +:+ bearer_input f) ∧
  r_auth (build_request Json.loads f) = None.
Proof.
  apply (bearer_header_wins Json.loads
           (post_form [mk_row "Authorization" "Basic dXNlcjpwdw=="] "none" "" "" "Bearer" "tok" "" ""));
    [reflexivity | discriminate].
Defined.

(** X11: with auth type [Basic] the request carries the credentials
    (user name input, password input) even when the user name is left
    empty, and the auth adds no header: every header other than
    [Content-Type] is the one of the header rows. *)
Theorem basic_credentials_always_sent (json_loads : string → option json) (f : form) :
  auth_type f = "Basic" →
  r_auth (build_request json_loads f) = Some (username_input f, password_input f) ∧
  ∀ k, k ≠ "Content-Type" →
    from_option (λ h, h !! k) None (r_headers (build_request json_loads f))
    = kv_rows_to_dict (headers_rows f) !! k.
Proof.
  intros Ha. rewrite request_auth.
  assert (Hb : build_auth (auth_type f) (bearer_token f) (basic_user f) (basic_pass f)
               = (∅, Some (username_input f, password_input f))).
  { unfold bearer_token, basic_user, basic_pass, auth_tab. rewrite Ha. simpl.
    unfold build_auth. simpl. destruct (password_input f); reflexivity. }
  split; [rewrite Hb; reflexivity|].
  intros k Hk. rewrite request_header_lookup by exact Hk.
  unfold merged_headers, PyDict.update. rewrite Hb. simpl.
  rewrite (left_id_L ∅ (∪)). reflexivity.
Qed.

Lemma basic_credentials_always_sent_witness :
  let f := post_form [mk_row "Accept" "text/html"] "none" "" "" "Basic" "" "" "" in
  r_auth (build_request Json.loads f) = Some (username_input f, password_input f) ∧
  ∀ k, k ≠ "Content-Type" →
    from_option (λ h, h !! k) None (r_headers (build_request Json.loads f))
    = kv_rows_to_dict (headers_rows f) !! k.
Proof.
  apply (basic_credentials_always_sent Json.loads
           (post_form [mk_row "Accept" "text/html"] "none" "" "" "Basic" "" "" "")).
  reflexivity.
Defined.

(** X12: with an auth type other than [Basic], and either other than
    [Bearer] or with an empty token, the request carries no credentials
    and the auth adds no header, whatever stands in the credential
    inputs: every header other than [Content-Type] is the one of the
    header rows. *)
Theorem no_auth_leaves_headers (json_loads : string → option json) (f : form) :
  auth_type f ≠ "Basic" →
  auth_type f ≠ "Bearer" ∨ bearer_input f = "" →
  r_auth (build_request json_loads f) = None ∧
  ∀ k, k ≠ "Content-Type" →
    from_option (λ h, h !! k) None (r_headers (build_request json_loads f))
    = kv_rows_to_dict (headers_rows f) !! k.
Proof.
  intros Hn Hb. rewrite request_auth.
  assert (He : build_auth (auth_type f) (bearer_token f) (basic_user f) (basic_pass f)
               = (∅, None)).
  { unfold bearer_token, basic_user, basic_pass, auth_tab, build_auth.
    apply String.eqb_neq in Hn. rewrite Hn.
    destruct (String.eqb_spec (auth_type f) "Bearer") as [Hbe|Hbe]; simpl; [|reflexivity].
    destruct Hb as [Hb|Hb]; [contradiction|]. rewrite Hb. reflexivity. }
  split; [rewrite He; reflexivity|].
  intros k Hk. rewrite request_header_lookup by exact Hk.
  unfold merged_headers, PyDict.update. rewrite He. simpl.
  rewrite (left_id_L ∅ (∪)). reflexivity.
Qed.

Lemma no_auth_leaves_headers_witness :
  let f := post_form [mk_row "Authorization" "ApiKey k1"] "none" "" "" "Bearer" "" "bob" "pw" in
  r_auth (build_request Json.loads f) = None ∧
  ∀ k, k ≠ "Content-Type" →
    from_option (λ h, h !! k) None (r_headers (build_request Json.loads f))
    = kv_rows_to_dict (headers_rows f) !! k.
Proof.
  apply (no_auth_leaves_headers Json.loads
           (post_form [mk_row "Authorization" "ApiKey k1"] "none" "" "" "Bearer" "" "bob" "pw"));
    [discriminate | right; reflexivity].
Defined.

(** ** The body viewer and the events of a submission *)

Lemma body_viewer_cases (json_loads : string → option json) (resp : response) :
  body_viewer json_loads resp =
  match json_loads (text resp) with
  | Some JNull => if declares_json resp then StJson JNull else StTextArea (text resp)
  | Some v => StJson v
  | None => if declares_json resp then StText (text resp) else StTextArea (text resp)
  end.
Proof.
  unfold body_viewer, declares_json, try_parse_json.
  destruct (PyStr.contains _ _), (json_loads (text resp)) as [[]|]; reflexivity.
Qed.

(** X13: the viewer always shows the body, in one of its three ways.  A
    body that parses to a value other than [null] is shown structured
    whatever the content type; a body that does not parse is shown as
    text; text is always the body text itself; and what is shown
    structured is always what [json.loads] returned for the body. *)
Theorem body_viewer_outcomes (json_loads : string → option json) (resp : response) :
  is_body_event (body_viewer json_loads resp) = true ∧
  (∀ v, json_loads (text resp) = Some v → v ≠ JNull → body_viewer json_loads resp = StJson v) ∧
  (json_loads (text resp) = None →
   body_viewer json_loads resp
   = if declares_json resp then StText (text resp) else StTextArea (text resp)) ∧
  (∀ s, body_viewer json_loads resp = StText s ∨ body_viewer json_loads resp = StTextArea s →
        s = text resp) ∧
  (∀ v, body_viewer json_loads resp = StJson v → json_loads (text resp) = Some v).
Proof.
  rewrite body_viewer_cases.
  destruct (json_loads (text resp)) as [v|]; destruct (declares_json resp); try destruct v;
    (split; [reflexivity|]);
    (split; [intros ? H1 H2;
             first [discriminate H1 | injection H1 as <-; first [reflexivity | contradiction]]|]);
    (split; [intros H; first [discriminate H | reflexivity]|]);
    (split; [intros ? [H|H]; first [discriminate H | injection H as <-; reflexivity]
            | intros ? H; first [discriminate H | injection H as <-; reflexivity]]).
Qed.

Lemma body_viewer_not_http (json_loads : string → option json) (resp : response) :
  is_http_call (body_viewer json_loads resp) = false.
Proof.
  rewrite body_viewer_cases.
  destruct (json_loads (text resp)) as [[]|], (declares_json resp); reflexivity.
Qed.

Section SendFacts.

Variable json_loads : string → option json.
Variable http : request → string + response.

Lemma send_block_cases (f : form) :
  send_block json_loads http f =
  if submitted f then
    if url_ok f then
      HttpCall (build_request json_loads f) ::
      match http (build_request json_loads f) with
      | inl e => [StError ("Request failed: " +:+ e)]
      | inr resp => [body_viewer json_loads resp; body_viewer json_loads resp]
      end
    else [StError invalid_url_msg; PyRaise "NameError"]
  else [].
Proof.
  unfold send_block. destruct (submitted f); [|reflexivity].
  destruct (url_ok f); simpl; [|reflexivity].
  destruct (http (build_request json_loads f)); reflexivity.
Qed.

End SendFacts.

(** X14: a run makes at most one HTTP call, and exactly one when the
    form was submitted and the URL passed the check: there is no retry,
    neither after a failure nor after a response.  The call carries the
    form's method, its URL as typed (not trimmed), its timeout and its
    verify flag. *)
Theorem at_most_one_http_call
    (json_loads : string → option json) (http : request → string + response) (f : form) :
  http_calls (send_block json_loads http f) = (if submitted f && url_ok f then 1 else 0)%nat ∧
  ∀ r, HttpCall r ∈ send_block json_loads http f →
       r = build_request json_loads f ∧
       r_method r = method f ∧ r_url r = url f ∧
       r_timeout r = timeout_s f ∧ r_verify r = verify_ssl f.
Proof.
  rewrite send_block_cases.
  destruct (submitted f), (url_ok f); simpl;
    try (split; [reflexivity|]; intros r H;
         repeat (apply elem_of_cons in H as [H|H]; [discriminate|]); inversion H).
  unfold http_calls.
  destruct (http (build_request json_loads f)) as [e|resp]; simpl;
    rewrite ?body_viewer_not_http; simpl; (split; [reflexivity|]); intros r H;
    apply elem_of_cons in H as [H|H];
    try (injection H as ->; rewrite build_request_eq; simpl; auto).
  - apply list_elem_of_singleton in H. discriminate.
  - exfalso. pose proof (body_viewer_not_http json_loads resp) as Hn.
    repeat (apply elem_of_cons in H as [H|H]; [rewrite <- H in Hn; discriminate|]).
    inversion H.
Qed.


Example response_is_shown :
  send_block Json.loads (answers (response_with "application/json" "[1]"))
    (bare_form "GET" "http://host")
  = [HttpCall (build_request Json.loads (bare_form "GET" "http://host"));
     StJson (JArr [JNum "1"]); StJson (JArr [JNum "1"])].
Proof. vm_compute. reflexivity. Qed.

(** ** Looking presets up *)

Lemma find_preset_app (m : string) (ps qs : list RequestPreset.t) :
  find_preset m (ps ++ qs)%list
  = match find_preset m ps with
    | Some p => Some p
    | None => find_preset m qs
    end.
Proof.
  unfold find_preset. induction ps as [|p ps IH]; simpl; [reflexivity|].
  destruct (String.eqb (RequestPreset.name p) m); [reflexivity | exact IH].
Qed.

Lemma find_preset_without_name (n m : string) (ps : list RequestPreset.t) :
  find_preset m (without_name n ps) = if String.eqb m n then None else find_preset m ps.
Proof.
  induction ps as [|p ps IH]; [destruct (String.eqb m n); reflexivity|].
  rewrite without_name_cons. unfold find_preset in *. simpl.
  destruct (String.eqb_spec (RequestPreset.name p) n) as [Hn|Hn].
  - rewrite IH. destruct (String.eqb_spec m n) as [Hm|Hm]; [reflexivity|].
    destruct (String.eqb_spec (RequestPreset.name p) m); [congruence | reflexivity].
  - simpl. destruct (String.eqb_spec (RequestPreset.name p) m) as [Hm|Hm].
    + destruct (String.eqb_spec m n); [congruence | reflexivity].
    + exact IH.
Qed.

Lemma find_preset_Some (n : string) (ps : list RequestPreset.t) (p : RequestPreset.t) :
  find_preset n ps = Some p → RequestPreset.name p = n ∧ p ∈ ps.
Proof.
  unfold find_preset. intros H. apply List.find_some in H as [Hin He].
  split; [apply String.eqb_eq, He | apply list_elem_of_In, Hin].
Qed.

Lemma find_preset_None (n : string) (ps : list RequestPreset.t) :
  find_preset n ps = None ↔ n ∉ preset_names ps.
Proof.
  unfold find_preset, preset_names. induction ps as [|p ps IH]; simpl.
  - split; [intros _ H; inversion H | reflexivity].
  - rewrite not_elem_of_cons.
    destruct (String.eqb_spec (RequestPreset.name p) n) as [He|He].
    + split; [discriminate | intros [H _]; congruence].
    + rewrite IH. split; [intros H; split; [congruence | exact H] | intros [_ H]; exact H].
Qed.

(** X16: after a save that validates, looking the saved name up finds
    the preset just saved, and looking any other name up finds what it
    found before the save. *)
Theorem find_preset_after_save
    (json_loads : string → option json) (validation_error : RequestPreset.t → option string)
    (http : request → string + response) (f : form) (presets : list RequestPreset.t) :
  save_clicked f = true →
  validation_error (preset_of_form f) = None →
  let presets' := presets_after json_loads validation_error http f presets in
  find_preset (RequestPreset.name (preset_of_form f)) presets' = Some (preset_of_form f) ∧
  ∀ m, m ≠ RequestPreset.name (preset_of_form f) →
       find_preset m presets' = find_preset m presets.
Proof.
  intros Hc Hv presets'. subst presets'.
  rewrite (presets_after_saved json_loads validation_error http f presets Hc Hv).
  split.
  - rewrite find_preset_app, find_preset_without_name, String.eqb_refl.
    unfold find_preset. simpl. rewrite String.eqb_refl. reflexivity.
  - intros m Hm. rewrite find_preset_app, find_preset_without_name.
    destruct (String.eqb_spec m (RequestPreset.name (preset_of_form f))); [contradiction|].
    destruct (find_preset m presets); [reflexivity|].
    unfold find_preset. cbn [List.find].
    destruct (String.eqb_spec (RequestPreset.name (preset_of_form f)) m); [congruence|].
    reflexivity.
Qed.

Lemma find_preset_after_save_witness :
  let f := save_form "X" "second" in
  let presets' := presets_after Json.loads accepts refused f two_presets in
  find_preset (RequestPreset.name (preset_of_form f)) presets' = Some (preset_of_form f) ∧
  ∀ m, m ≠ RequestPreset.name (preset_of_form f) →
       find_preset m presets' = find_preset m two_presets.
Proof.
  apply (find_preset_after_save Json.loads accepts refused (save_form "X" "second") two_presets);
    reflexivity.
Defined.

(** X17: the "Load preset" block shows nothing for the placeholder
    entry and nothing for a name that no preset has; for any other
    selection it shows the one message that names the selection. *)
Theorem load_block_shows_known_name (f : form) (presets : list RequestPreset.t) :
  (selected_name f = "—" → load_block f presets = []) ∧
  (selected_name f ∉ preset_names presets → load_block f presets = []) ∧
  (selected_name f ≠ "—" → selected_name f ∈ preset_names presets →
   load_block f presets = [StInfo ("Preset selected: " +:+ selected_name f)]).
Proof.
  unfold load_block.
  fold (find_preset (selected_name f) presets).
  split; [|split].
  - intros ->. reflexivity.
  - intros H. apply find_preset_None in H. rewrite H.
    destruct (negb _); reflexivity.
  - intros Hd Hin. apply String.eqb_neq in Hd. rewrite Hd. simpl.
    destruct (find_preset (selected_name f) presets) as [sel|] eqn:Hf.
    + apply find_preset_Some in Hf as [-> _]. reflexivity.
    + apply find_preset_None in Hf. contradiction.
Qed.

(** ** The store across runs *)

Lemma presets_after_cases
    (json_loads : string → option json) (validation_error : RequestPreset.t → option string)
    (http : request → string + response) (f : form) (presets : list RequestPreset.t) :
  presets_after json_loads validation_error http f presets =
  if save_clicked f then
    match validation_error (preset_of_form f) with
    | None =>
        (without_name (RequestPreset.name (preset_of_form f)) presets ++ [preset_of_form f])%list
    | Some _ => presets
    end
  else presets.
Proof.
  destruct (save_clicked f) eqn:Hc.
  - destruct (validation_error (preset_of_form f)) as [e|] eqn:Hv.
    + rewrite presets_after_eq, !(save_block_aborted validation_error _ _ e) by exact Hv.
      reflexivity.
    + apply presets_after_saved; assumption.
  - rewrite presets_after_eq, !save_block_not_clicked by exact Hc. reflexivity.
Qed.

(** X18: a run is idempotent on the store: running the script again on
    the same form leaves the store as the first run left it, whether the
    preset was saved, refused by the validation, or not saved at all. *)
Theorem presets_after_idempotent
    (json_loads : string → option json) (validation_error : RequestPreset.t → option string)
    (http : request → string + response) (f : form) (presets : list RequestPreset.t) :
  presets_after json_loads validation_error http f
    (presets_after json_loads validation_error http f presets)
  = presets_after json_loads validation_error http f presets.
Proof.
  rewrite !presets_after_cases.
  destruct (save_clicked f); [|reflexivity].
  destruct (validation_error (preset_of_form f)); [reflexivity|].
  rewrite without_name_app, without_name_idem, without_name_cons, String.eqb_refl.
  unfold without_name at 2. simpl. rewrite app_nil_r. reflexivity.
Qed.

(** X19: without a click on "Save preset" the store is left as it is,
    also when a request is sent in the run; and the store after a run
    depends on the run only through the click and the fields of the
    preset: not on [json.loads], not on the HTTP executor or its answer,
    not on whether the form was submitted. *)
Theorem store_untouched_by_sending
    (json_loads : string → option json) (validation_error : RequestPreset.t → option string)
    (http : request → string + response) (f : form) (presets : list RequestPreset.t) :
  (save_clicked f = false →
   presets_after json_loads validation_error http f presets = presets) ∧
  (∀ (json_loads' : string → option json) (http' : request → string + response) (f' : form),
     save_clicked f' = save_clicked f → preset_of_form f' = preset_of_form f →
     presets_after json_loads' validation_error http' f' presets
     = presets_after json_loads validation_error http f presets).
Proof.
  split.
  - intros Hc. rewrite presets_after_cases, Hc. reflexivity.
  - intros json_loads' http' f' Hc Hp. rewrite !presets_after_cases, Hc, Hp. reflexivity.
Qed.

Example sending_keeps_store :
  (script Json.loads accepts (answers (response_with "text/plain" "ok"))
     (bare_form "GET" "http://host") two_presets).1 = two_presets.
Proof. reflexivity. Qed.

Lemma preset_name_ok (f : form) :
  RequestPreset.name (preset_of_form f) ≠ "" ∧ PyStr.trimmed (RequestPreset.name (preset_of_form f)).
Proof.
  rewrite preset_name_of_form.
  destruct (PyStr.truthy (PyStr.strip (new_name f))) eqn:Ht.
  - split; [apply PyStrFacts.truthy_true, Ht | apply PyStrFacts.strip_trimmed].
  - split; [discriminate|]. split; intros c [= <-]; reflexivity.
Qed.

Lemma presets_after_names
    (json_loads : string → option json) (validation_error : RequestPreset.t → option string)
    (http : request → string + response) (f : form) (presets : list RequestPreset.t)
    (n : string) :
  n ∈ preset_names (presets_after json_loads validation_error http f presets) →
  n ∈ preset_names presets ∨ n = RequestPreset.name (preset_of_form f).
Proof.
  rewrite presets_after_cases.
  destruct (save_clicked f); [|auto].
  destruct (validation_error (preset_of_form f)); [auto|].
  unfold preset_names. rewrite fmap_app, elem_of_app. intros [H|H].
  - left. apply without_name_names in H. tauto.
  - right. apply list_elem_of_singleton in H. exact H.
Qed.

(** X20: in every store that a session reaches from the empty store, by
    any sequence of runs, the names of the presets are pairwise distinct,
    none is empty, and none has white space at either end. *)
Theorem reachable_names_wellformed
    (json_loads : string → option json) (validation_error : RequestPreset.t → option string)
    (http : request → string + response) (presets : list RequestPreset.t) :
  reachable json_loads validation_error http presets →
  NoDup (preset_names presets) ∧
  ∀ n, n ∈ preset_names presets → n ≠ "" ∧ PyStr.trimmed n.
Proof.
  induction 1 as [|f presets _ [IHd IHn]].
  - split; [constructor | intros n H; inversion H].
  - split; [apply presets_after_NoDup, IHd|].
    intros n H. apply presets_after_names in H as [H| ->]; [auto | apply preset_name_ok].
Qed.

Lemma reachable_names_wellformed_witness :
  NoDup (preset_names two_presets) ∧
  ∀ n, n ∈ preset_names two_presets → n ≠ "" ∧ PyStr.trimmed n.
Proof.
  apply (reachable_names_wellformed Json.loads accepts refused two_presets).
  unfold two_presets. apply reachable_run, reachable_run, reachable_init.
Defined.
